(** * File-Transfer: the ephemeral file lifecycle

    A shallow embedding of the file model (internal/models/files.go), of the
    file handlers and of the helpers they call (purge, code generator), with
    the properties of the lifecycle stated and proved over it.

    Conventions.
    - A Go [error] is a value of [error]; [option error] is a nilable error,
      [None] being nil.  [Error] gives the message, [errors.Is] on the
      sentinel errors is equality.
    - Instants and durations are integers counted in nanoseconds, the unit of
      Go's [time.Duration].  Every call of [time.Now()] in the source is an
      explicit argument of the embedded function, in the order of the calls.
    - The metadata store is the table [files] together with its id sequence;
      the statements are run against it without faults (no timeout, no lost
      connection).  The columns expiry, created_at and last_updated are
      timestamp(0) columns: what they hold is the value they are given
      through the conversion [timestamp0] of the database, which rounds to
      whole seconds.  The table of users behind user_id is not modelled.
    - The filesystem is a finite map from path strings to nodes, addressed by
      the strings the program uses.  A call on a path that is not there
      fails with ENOTDIR when a regular file stands on the way to it and
      with ENOENT otherwise.  [filepath.Dir] and the random source of
      math/rand are library code and are parameters of the development, as
      is the name that os.ReadDir gives the failed operation on a regular
      file, which changed between releases of Go. *)

From Stdlib Require Import ZArith String Ascii List Bool Lia.
From stdpp Require Import gmap strings.
Import ListNotations.
Local Open Scope Z_scope.
Set Default Proof Using "Type".

(** ** Errors *)

Inductive Errno := ENOENT | ENOTDIR | ENOTEMPTY | EISDIR.

Definition Errno_Error (e : Errno) : string :=
  match e with
  | ENOENT => "no such file or directory"
  | ENOTDIR => "not a directory"
  | ENOTEMPTY => "directory not empty"
  | EISDIR => "is a directory"
  end.

Inductive error :=
| ErrDuplicatePath                      (* models.ErrDuplicatePath *)
| ErrRecordNotFound                     (* models.ErrRecordNotFound *)
| ErrEditConflict                       (* models.ErrEditConflict *)
| sql_ErrNoRows                         (* database/sql *)
| pq_Error (Message : string)           (* github.com/lib/pq *)
| PathError (Op Path : string) (Err : Errno)   (* io/fs *)
| http_ErrMissingFile.                  (* net/http, from FormFile *)

Definition dquote : string := String "034"%char EmptyString.

Definition Error (e : error) : string :=
  match e with
  | ErrDuplicatePath => "duplicate path"
  | ErrRecordNotFound => "record not found"
  | ErrEditConflict => "edit conflict"
  | sql_ErrNoRows => "sql: no rows in result set"
  | pq_Error m => "pq: " +:+ m
  | PathError op p e => op +:+ " " +:+ p +:+ ": " +:+ Errno_Error e
  | http_ErrMissingFile => "http: no such file"
  end.

#[global] Instance Errno_eq_dec : EqDecision Errno.
Proof. solve_decision. Defined.

#[global] Instance error_eq_dec : EqDecision error.
Proof. solve_decision. Defined.

(** errors.Is(err, target) for the sentinel errors of the program. *)
Definition errors_Is (err target : error) : bool := bool_decide (err = target).

(** ** Time *)

Definition Second : Z := 1000000000.
Definition Minute : Z := 60 * Second.

(** ** What the platform decides

    [timestamp0] is the conversion of a value stored in a column of type
    timestamp(0) with time zone (migration of the table files): PostgreSQL
    rounds the instant to whole seconds.  [ReadDir_op] is the operation that
    the error of os.ReadDir names when the path is a regular file:
    readdirent with the toolchain of go.mod (Go 1.20), open with later
    ones.  The development holds for every choice of the two. *)
Class Postgres := { timestamp0 : Z -> Z }.

Class GoToolchain := { ReadDir_op : string }.

(** ** The file model (internal/models/files.go) *)

Record File := {
  ID : Z;
  Name : string;
  Size : Z;
  Path : string;
  Code : string;
  Expiry : Z;
  CreatedAt : Z;
  LastUpdated : Z;
  UserID : Z
}.

#[global] Instance File_eq_dec : EqDecision File.
Proof. solve_decision. Defined.

(** Modelled from the spec: the declaration of models.User (users.go) is not
    among the sources.  The owner of a file is an account, a lookup key that
    scopes access, and blobs are stored in one subdirectory per owner: of the
    account the file code reads the id (u.ID) and the email (user.Email). *)
Record User := { User_ID : Z; Email : string }.

(** The table [files] (migration: id bigserial primary key, path and code
    unique) and the sequence behind [id]. *)
Record DB := { rows : list File; files_id_seq : Z }.

Definition unique_violation (constraint : string) : error :=
  pq_Error ("duplicate key value violates unique constraint "
            +:+ dquote +:+ constraint +:+ dquote).

(** QueryRowContext(...).Scan: the first row of the result, or
    sql.ErrNoRows. *)
Definition QueryRow {A} (result : list A) : A + error :=
  match result with
  | [] => inr sql_ErrNoRows
  | r :: _ => inl r
  end.

(** INSERT INTO files (name, size, path, code, expiry, user_id)
    VALUES (...) RETURNING id, created_at, last_updated.
    The id is drawn from the sequence before the unique indexes are
    checked, path before code; created_at and last_updated default to the
    time of the statement.  The three timestamp(0) columns hold the
    converted values, and RETURNING reads the columns. *)
Definition insert_files {PG : Postgres} (db : DB) (now : Z) (f : File)
  : DB * (Z * Z * Z + error) :=
  let id := files_id_seq db in
  let failed := {| rows := rows db; files_id_seq := id + 1 |} in
  if existsb (fun r => String.eqb (Path r) (Path f)) (rows db) then
    (failed, inr (unique_violation "files_path_key"))
  else if existsb (fun r => String.eqb (Code r) (Code f)) (rows db) then
    (failed, inr (unique_violation "files_code_key"))
  else
    let row := {| ID := id; Name := Name f; Size := Size f; Path := Path f;
                  Code := Code f; Expiry := timestamp0 (Expiry f);
                  CreatedAt := timestamp0 now; LastUpdated := timestamp0 now;
                  UserID := UserID f |} in
    ({| rows := rows db ++ [row]; files_id_seq := id + 1 |},
     inl (id, CreatedAt row, LastUpdated row)).

(** Insert fills ID, CreatedAt and LastUpdated of the file it is given;
    Expiry keeps the value the caller computed, which the row holds
    converted. *)
Definition Insert {PG : Postgres} (db : DB) (now : Z) (file : File)
  : DB * File * option error :=
  match insert_files db now file with
  | (db', inr err) =>
      if String.eqb (Error err)
           ("pq: duplicate key value violates unique constraint "
            +:+ dquote +:+ "files_path_key" +:+ dquote)
      then (db', file, Some ErrDuplicatePath)
      else (db', file, Some err)
  | (db', inl (id, created_at, last_updated)) =>
      (db',
       {| ID := id; Name := Name file; Size := Size file; Path := Path file;
          Code := Code file; Expiry := Expiry file; CreatedAt := created_at;
          LastUpdated := last_updated; UserID := UserID file |},
       None)
  end.

(** The row behind a file that Insert has filled: the file, with the expiry
    as the column holds it. *)
Definition stored {PG : Postgres} (file : File) : File :=
  {| ID := ID file; Name := Name file; Size := Size file; Path := Path file;
     Code := Code file; Expiry := timestamp0 (Expiry file);
     CreatedAt := CreatedAt file; LastUpdated := LastUpdated file;
     UserID := UserID file |}.

(** Scan of the eight selected columns into a fresh File: UserID keeps its
    zero value. *)
Definition Scan8 (r : File) : File :=
  {| ID := ID r; Name := Name r; Size := Size r; Path := Path r;
     Code := Code r; Expiry := Expiry r; CreatedAt := CreatedAt r;
     LastUpdated := LastUpdated r; UserID := 0 |}.

(** WHERE id = $1 AND user_id = $2 AND expiry > $3 *)
Definition where_id_user_live (id uid now : Z) (r : File) : bool :=
  (ID r =? id) && (UserID r =? uid) && (now <? Expiry r).

(** WHERE user_id = $1 AND expiry > $2 *)
Definition where_user_live (uid now : Z) (r : File) : bool :=
  (UserID r =? uid) && (now <? Expiry r).

(** WHERE code = $1 AND expiry > $2 *)
Definition where_code_live (code : string) (now : Z) (r : File) : bool :=
  String.eqb (Code r) code && (now <? Expiry r).

(** WHERE path = $4 AND id = $5 AND user_id = $6 AND expiry > $7 *)
Definition where_path_id_user_live (path : string) (id uid now : Z) (r : File)
  : bool :=
  String.eqb (Path r) path && (ID r =? id) && (UserID r =? uid)
  && (now <? Expiry r).

(** WHERE id = $1 AND expiry > $2 *)
Definition where_id_live (id now : Z) (r : File) : bool :=
  (ID r =? id) && (now <? Expiry r).

(** A method whose results are a pointer to a File and an error returns a
    file or an error, never both and never neither: [inl file] stands for
    (&file, nil) and [inr err] for (nil, err). *)
Definition GetFromUser (db : DB) (now : Z) (id : Z) (u : User)
  : File + error :=
  if id <? 1 then inr ErrRecordNotFound
  else
    match QueryRow (List.filter (where_id_user_live id (User_ID u) now)
                                (rows db)) with
    | inr err =>
        if errors_Is err sql_ErrNoRows then inr ErrRecordNotFound
        else inr err
    | inl r => inl (Scan8 r)
    end.

Definition GetAllFromUser (db : DB) (now : Z) (u : User)
  : list File * option error :=
  (map Scan8 (List.filter (where_user_live (User_ID u) now) (rows db)), None).

Definition GetFromCode (db : DB) (now : Z) (code : string)
  : File + error :=
  match QueryRow (List.filter (where_code_live code now) (rows db)) with
  | inr err =>
      if errors_Is err sql_ErrNoRows then inr ErrRecordNotFound
      else inr err
  | inl r => inl (Scan8 r)
  end.

(** UPDATE files SET expiry = $1, last_updated = $2, code = $3
    WHERE path = $4 AND id = $5 AND user_id = $6 AND expiry > $7
    RETURNING *.
    The statement fails as a whole, changing nothing, when a row it writes
    would share its code with another row (unique index on code).  The
    columns expiry and last_updated hold the converted values, which are
    what RETURNING reads. *)
Definition set_expiry_updated_code (expiry last_updated : Z) (code : string)
    (r : File) : File :=
  {| ID := ID r; Name := Name r; Size := Size r; Path := Path r;
     Code := code; Expiry := expiry; CreatedAt := CreatedAt r;
     LastUpdated := last_updated; UserID := UserID r |}.

Definition update_files {PG : Postgres} (db : DB) (expiry last_updated : Z)
    (code : string) (path : string) (id uid now : Z)
  : DB * (list File + error) :=
  let hit := where_path_id_user_live path id uid now in
  let set := set_expiry_updated_code (timestamp0 expiry)
                                     (timestamp0 last_updated) code in
  let rows' := map (fun r => if hit r then set r else r) (rows db) in
  if existsb hit (rows db)
     && (1 <? Z.of_nat (length (List.filter
                                  (fun r => String.eqb (Code r) code) rows')))
  then (db, inr (unique_violation "files_code_key"))
  else ({| rows := rows'; files_id_seq := files_id_seq db |},
        inl (map set (List.filter hit (rows db)))).

(** The three arguments [now_expiry], [now_updated] and [now_live] are the
    three calls of time.Now() that build the argument list, in order. *)
Definition UpdateFromUser {PG : Postgres} (db : DB)
    (now_expiry now_updated now_live : Z)
    (path : string) (id : Z) (u : User) (code : string)
  : DB * (File + error) :=
  let '(db', result) :=
    update_files db (now_expiry + 2 * Minute) now_updated code
                 path id (User_ID u) now_live in
  match match result with inr e => inr e | inl rs => QueryRow rs end with
  | inr err =>
      if errors_Is err sql_ErrNoRows then (db', inr ErrRecordNotFound)
      else (db', inr err)
  | inl r => (db', inl r)
  end.

(** DELETE FROM files WHERE <cond> [RETURNING ...]: the table without the
    rows that satisfy the condition, and the deleted rows. *)
Definition delete_files (db : DB) (cond : File -> bool) : DB * list File :=
  ({| rows := List.filter (fun r => negb (cond r)) (rows db);
      files_id_seq := files_id_seq db |},
   List.filter cond (rows db)).

Definition Delete (db : DB) (now : Z) (id : Z) : DB * option error :=
  if id <? 1 then (db, Some ErrRecordNotFound)
  else
    let '(db', deleted) := delete_files db (where_id_live id now) in
    let rowsAffected := Z.of_nat (length deleted) in
    if rowsAffected =? 0 then (db', Some ErrRecordNotFound)
    else (db', None).

(** DeleteFromUser also returns the path.  The first test of [err] returns
    whatever Scan reported, sql.ErrNoRows included; the switch that maps
    sql.ErrNoRows to ErrRecordNotFound comes after it in the source and is
    never reached. *)
Definition DeleteFromUser (db : DB) (now : Z) (id : Z) (u : User)
  : DB * (string * option error) :=
  if id <? 1 then (db, (EmptyString, Some ErrRecordNotFound))
  else
    let '(db', deleted) :=
      delete_files db (where_id_user_live id (User_ID u) now) in
    match QueryRow (map Path deleted) with
    | inr err => (db', (EmptyString, Some err))
    | inl path => (db', (path, None))
    end.

(** The constraints of the table (migration): id is the primary key and
    comes from the sequence, which starts at 1; path and code are unique. *)
Definition wf_db (db : DB) : Prop :=
  NoDup (map ID (rows db))
  /\ NoDup (map Path (rows db))
  /\ NoDup (map Code (rows db))
  /\ Forall (fun r => 1 <= ID r < files_id_seq db) (rows db)
  /\ 1 <= files_id_seq db.

(** ** Validation *)

(** Modelled from the spec: the package internal/validator (Validator, New,
    Check, AddError, Valid) is not among the sources.  The spec has the
    name, size and code checks as a static validation that either passes or
    reports the failed fields: a validator collects one message per key,
    [Check] records its message when the condition is false, and [Valid]
    holds when nothing was recorded. *)
Record Validator := { Errors : gmap string string }.

Definition New : Validator := {| Errors := ∅ |}.

Definition AddError (v : Validator) (key message : string) : Validator :=
  match Errors v !! key with
  | Some _ => v
  | None => {| Errors := <[key := message]> (Errors v) |}
  end.

Definition Check (v : Validator) (ok : bool) (key message : string)
  : Validator :=
  if ok then v else AddError v key message.

Definition Valid (v : Validator) : bool := bool_decide (Errors v = ∅).

Definition len (s : string) : Z := Z.of_nat (String.length s).

Definition ValidateFile (v : Validator) (file : File) : Validator :=
  let v := Check v (len (Name file) <=? 50)
                 "file_name" "must not be more than 50 bytes long" in
  let v := Check v (Size file <=? 1000000)
                 "file_size" "must not be more than 1_000_000 bytes big" in
  Check v (len (Code file) =? 8) "code" "must be 8 bytes long".

(** ** The filesystem and the HTTP side *)

Inductive node := RegFile (content : string) | Directory.

(** The file of a multipart form: handler.Filename, handler.Size and the
    bytes of the part. *)
Record FormFile := { Filename : string; FormSize : Z; Content : string }.

(** envelope{key: data} *)
Inductive payload :=
| data_file (f : File)
| data_files (fs : list File)
| data_message (m : string).

(** What a handler does to the response writer, in order.
    Modelled from the spec: the response helpers (badRequestResponse,
    failedValidationResponse, serverErrorResponse and notFoundResponse, in
    errors.go) are not among the sources; they are the kinds of answer of the
    spec (invalid input, a generic server error, not found), and a call of a
    helper is recorded under its name with its arguments.  [writeJSON] is
    the helper of the sources, whose json.Marshal does not fail on these
    payloads; [attachment] stands for the three headers of a download and
    [ioCopy] for its body. *)
Inductive response :=
| badRequestResponse (err : error)
| failedValidationResponse (errors : gmap string string)
| serverErrorResponse (err : error)
| notFoundResponse
| writeJSON (status : Z) (key : string) (data : payload)
| attachment (filename : string) (content_length : Z)
| ioCopy (body : string).

Definition StatusOK : Z := 200.
Definition StatusAccepted : Z := 202.

(** A function handed to app.background by an upload or a replacement: a
    select over the timer and the termination signal, either of which calls
    deleteFileInBackground job_path job_id. *)
Record job := { timer : Z; job_path : string; job_id : Z }.

Record outcome := {
  out_db : DB;
  out_fs : gmap string node;
  out_responses : list response;
  out_background : list job
}.

(** err != nil && err.Error() != msg *)
Definition err_other_than (err : option error) (msg : string) : bool :=
  match err with
  | Some e => negb (String.eqb (Error e) msg)
  | None => false
  end.

(** The alphabet of the code generator. *)
Definition letterRunes : list ascii :=
  list_ascii_of_string
    "abcdefghijklmnopqrstuvwxyzABCDEFGHIJKLMNOPQRSTUVWXYZ1234567890".

(** ** Instances of the library parameters

    The development below is parametric in [filepath.Dir] and in the
    generator of math/rand.  To run the model on concrete inputs it is
    instantiated with [unix_Dir], filepath.Dir for slash-separated paths
    (the path up to its last separator, cleaned), and with a linear
    congruential generator; the column conversion is instantiated with
    [round_seconds], the nearest whole second. *)

Definition slash : ascii := "/"%char.

Fixpoint components (s cur : list ascii) : list (list ascii) :=
  match s with
  | [] => [rev cur]
  | c :: s' =>
      if Ascii.eqb c slash then rev cur :: components s' []
      else components s' (c :: cur)
  end.

Definition is_dotdot (c : list ascii) : bool :=
  String.eqb (string_of_list_ascii c) "..".

(** One element of a path against the elements kept so far (last first):
    empty and dot elements vanish, dot-dot removes the element before it
    when there is one to remove. *)
Definition clean_step (rooted : bool) (kept : list (list ascii))
    (c : list ascii) : list (list ascii) :=
  if String.eqb (string_of_list_ascii c) "" then kept
  else if String.eqb (string_of_list_ascii c) "." then kept
  else if is_dotdot c then
    match kept with
    | top :: rest => if is_dotdot top then c :: kept else rest
    | [] => if rooted then kept else [c]
    end
  else c :: kept.

Fixpoint join_slash (cs : list (list ascii)) : list ascii :=
  match cs with
  | [] => []
  | [c] => c
  | c :: cs' => c ++ slash :: join_slash cs'
  end.

Definition unix_Clean (path : list ascii) : list ascii :=
  match path with
  | [] => ["."%char]
  | c0 :: _ =>
      let rooted := Ascii.eqb c0 slash in
      let kept := fold_left (clean_step rooted) (components path []) [] in
      let out := (if rooted then [slash] else []) ++ join_slash (rev kept) in
      match out with
      | [] => ["."%char]
      | _ => out
      end
  end.

(** The path without what follows its last separator. *)
Fixpoint drop_last_element (rpath : list ascii) : list ascii :=
  match rpath with
  | [] => []
  | c :: rest => if Ascii.eqb c slash then rpath else drop_last_element rest
  end.

Definition unix_Dir (path : string) : string :=
  string_of_list_ascii
    (unix_Clean (rev (drop_last_element (rev (list_ascii_of_string path))))).

Definition lcg_New (seed : Z) : Z := seed mod 2147483648.

Definition round_seconds (t : Z) : Z := (t + Second / 2) / Second * Second.

Definition lcg_Intn (r : Z) (n : Z) : Z * Z :=
  let r' := (r * 1103515245 + 12345) mod 2147483648 in
  ((r' / 65536) mod n, r').

(** ** A sample state

    One user with one file in the table and on disk, a second user, and the
    form of an upload of that file; the instant [t0] is a clock reading in
    nanoseconds. *)

Definition t0 : Z := 1700000000 * Second.

Definition alice : User := {| User_ID := 7; Email := "a@x.io" |}.
Definition bob : User := {| User_ID := 8; Email := "b@x.io" |}.

Definition alice_path : string := "./cache/a@x.io/a.txt".

Definition alice_file (expiry : Z) : File :=
  {| ID := 1; Name := "a.txt"; Size := 5; Path := alice_path;
     Code := "Ab3dE6gH"; Expiry := expiry; CreatedAt := t0;
     LastUpdated := t0; UserID := 7 |}.

Definition sample_db (expiry : Z) : DB :=
  {| rows := [alice_file expiry]; files_id_seq := 2 |}.

Definition empty_db : DB := {| rows := []; files_id_seq := 1 |}.

Definition sample_fs : gmap string node :=
  {[ "cache" := Directory;
     "cache/a@x.io" := Directory;
     alice_path := RegFile "hello" ]}.

Definition sample_form : FormFile :=
  {| Filename := "a.txt"; FormSize := 5; Content := "hello" |}.

(** More of the sample state: a filesystem where a regular file stands in
    the way of the cache folder, forms that fail validation or carry
    another name, and the upload and the replacement the properties are
    run on, with the records they answer with. *)

Definition blocked_fs : gmap string node := {[ "cache" := RegFile "" ]}.

Definition big_form : FormFile :=
  {| Filename := "a.txt"; FormSize := 2000000; Content := "hello" |}.

Definition other_form : FormFile :=
  {| Filename := "b.txt"; FormSize := 5; Content := "world" |}.

Definition new_form : FormFile :=
  {| Filename := "a.txt"; FormSize := 6; Content := "hello!" |}.

(** The record that the upload of [sample_form] by Alice into an empty
    store answers with, when the expiry is computed a microsecond after
    [t0] and the insert runs within the same second. *)
Definition uploaded_file (code : string) : File :=
  {| ID := 1; Name := "a.txt"; Size := 5; Path := alice_path;
     Code := code; Expiry := t0 + 1000 + 2 * Minute; CreatedAt := t0;
     LastUpdated := t0; UserID := 7 |}.

Section App.

(** Library code the program calls: filepath.Dir, and math/rand's
    generator, [rand_New seed] for rand.New(rand.NewSource(seed)) and
    [Intn r n] for r.Intn(n) with the generator it leaves behind. *)
Variable filepath_Dir : string -> string.
Variable Rand : Type.
Variable rand_New : Z -> Rand.
Variable Intn : Rand -> Z -> Z * Rand.
Context {PG : Postgres} {GO : GoToolchain}.

(** *** package os *)

(** The entries of a directory: the paths whose parent it is. *)
Definition entries (fs : gmap string node) (dirPath : string) : list string :=
  (map_to_list
     (filter (fun kv : string * node =>
                filepath_Dir kv.1 = dirPath /\ kv.1 <> dirPath) fs)).*1.

(** The way to a path: the folders above it, from the root down, which
    must all be directories.  [way fuel fs path] is the error of the first
    that is not, ENOENT when it is absent and ENOTDIR when it is a regular
    file, and [None] when the way is clear.  A path that is its own parent
    is a root, and is there.  A path has at most as many folders above it
    as it has bytes. *)
Fixpoint way (fuel : nat) (fs : gmap string node) (path : string)
  : option Errno :=
  match fuel with
  | O => None
  | S fuel' =>
      let parent := filepath_Dir path in
      if String.eqb parent path then None
      else
        match way fuel' fs parent with
        | Some e => Some e
        | None =>
            if String.eqb (filepath_Dir parent) parent then None
            else
              match fs !! parent with
              | Some Directory => None
              | Some (RegFile _) => Some ENOTDIR
              | None => Some ENOENT
              end
        end
  end.

(** The error number of a system call on a path that is not there. *)
Definition lookup_errno (fs : gmap string node) (path : string) : Errno :=
  match way (String.length path) fs path with
  | Some e => e
  | None => ENOENT
  end.

(** No regular file stands on the way to the path. *)
Definition no_file_on_the_way (fs : gmap string node) (path : string)
  : Prop :=
  way (String.length path) fs path <> Some ENOTDIR.

Definition os_ReadDir (fs : gmap string node) (name : string)
  : list string * option error :=
  match fs !! name with
  | None => ([], Some (PathError "open" name (lookup_errno fs name)))
  | Some (RegFile _) => ([], Some (PathError ReadDir_op name ENOTDIR))
  | Some Directory => (entries fs name, None)
  end.

(** os.Remove removes a file or an empty directory. *)
Definition os_Remove (fs : gmap string node) (name : string)
  : gmap string node * option error :=
  match fs !! name with
  | None => (fs, Some (PathError "remove" name (lookup_errno fs name)))
  | Some (RegFile _) => (delete name fs, None)
  | Some Directory =>
      match entries fs name with
      | [] => (delete name fs, None)
      | _ :: _ => (fs, Some (PathError "remove" name ENOTEMPTY))
      end
  end.

Definition os_Stat (fs : gmap string node) (name : string)
  : node + error :=
  match fs !! name with
  | None => inr (PathError "stat" name (lookup_errno fs name))
  | Some n => inl n
  end.

Definition os_Open (fs : gmap string node) (name : string)
  : node + error :=
  match fs !! name with
  | None => inr (PathError "open" name (lookup_errno fs name))
  | Some n => inl n
  end.

(** os.MkdirAll: nothing to do for a directory, an error for a file,
    otherwise the parent first and then the directory itself.  A path that
    is its own parent is a root and is recorded as it is.  The recursion
    goes through at most as many parents as the path has bytes. *)
Fixpoint MkdirAll_from (fuel : nat) (fs : gmap string node) (path : string)
  : gmap string node * option error :=
  match fs !! path with
  | Some Directory => (fs, None)
  | Some (RegFile _) => (fs, Some (PathError "mkdir" path ENOTDIR))
  | None =>
      match fuel with
      | O => (<[path := Directory]> fs, None)
      | S fuel' =>
          if String.eqb (filepath_Dir path) path
          then (<[path := Directory]> fs, None)
          else
            match MkdirAll_from fuel' fs (filepath_Dir path) with
            | (fs', Some err) => (fs', Some err)
            | (fs', None) => (<[path := Directory]> fs', None)
            end
      end
  end.

Definition os_MkdirAll (fs : gmap string node) (path : string)
  : gmap string node * option error :=
  MkdirAll_from (String.length path) fs path.

(** os.Create: the file is created or truncated inside an existing
    directory. *)
Definition os_Create (fs : gmap string node) (name : string)
  : gmap string node * option error :=
  match fs !! name with
  | Some Directory => (fs, Some (PathError "open" name EISDIR))
  | _ =>
      match fs !! filepath_Dir name with
      | Some Directory => (<[name := RegFile EmptyString]> fs, None)
      | Some (RegFile _) => (fs, Some (PathError "open" name ENOTDIR))
      | None => (fs, Some (PathError "open" name (lookup_errno fs name)))
      end
  end.

(** *** helpers of the application *)

Definition isFolderEmpty (fs : gmap string node) (dirPath : string)
  : bool * option error :=
  match os_ReadDir fs dirPath with
  | (_, Some err) => (false, Some err)
  | (entries, None) => (Z.of_nat (length entries) =? 0, None)
  end.

Definition deleteEmptyFolder (fs : gmap string node) (dirPath : string)
  : gmap string node * option error :=
  match isFolderEmpty fs dirPath with
  | (_, Some err) => (fs, Some err)
  | (isEmpty, None) =>
      if isEmpty then
        match os_Remove fs dirPath with
        | (fs', Some err) => (fs', Some err)
        | (fs', None) => (fs', None)
        end
      else (fs, None)
  end.

Definition createFile (fs : gmap string node) (file : string)
    (file_path : string) : gmap string node * option error :=
  let folder_path := filepath_Dir file_path in
  match os_MkdirAll fs folder_path with
  | (fs1, Some err) => (fs1, Some err)
  | (fs1, None) =>
      match os_Create fs1 file_path with
      | (fs2, Some err) => (fs2, Some err)
      | (fs2, None) => (<[file_path := RegFile file]> fs2, None)
      end
  end.

(** The purge.  [now] is the time.Now() of Delete. *)
Definition deleteFileInBackground (db : DB) (fs : gmap string node)
    (now : Z) (file_path : string) (file_id : Z)
  : DB * gmap string node * option error :=
  let folder_path := filepath_Dir file_path in
  let '(db1, err) := Delete db now file_id in
  if err_other_than err "record not found" then (db1, fs, err)
  else
    let '(fs1, err) := os_Remove fs file_path in
    if err_other_than err
         ("remove " +:+ file_path +:+ ": no such file or directory")
    then (db1, fs1, err)
    else
      let '(fs2, err) := deleteEmptyFolder fs1 folder_path in
      if err_other_than err
           ("open " +:+ folder_path +:+ ": no such file or directory")
      then (db1, fs2, err)
      else (db1, fs2, None).

(** The eight runes of a code, drawn one after the other from the same
    generator. *)
Fixpoint fill_runes (n : nat) (r : Rand) : list ascii :=
  match n with
  | O => []
  | S n' =>
      let '(i, r') := Intn r (Z.of_nat (length letterRunes)) in
      nth (Z.to_nat i) letterRunes "000"%char :: fill_runes n' r'
  end.

(** [now] is time.Now().UnixNano(), the seed of the call. *)
Definition generateUniqueString (now : Z) : string :=
  let r := rand_New now in
  string_of_list_ascii (fill_runes 8 r).

(** *** handlers *)

Definition cache_path (user : User) (filename : string) : string :=
  "./cache/" +:+ Email user +:+ "/" +:+ filename.

(** The File an upload builds before it is validated and inserted; the
    fields it does not set have their zero value. *)
Definition upload_new_file (handler : FormFile) (user : User)
    (now_code now_expiry : Z) : File :=
  {| ID := 0;
     Name := Filename handler;
     Size := FormSize handler;
     Path := cache_path user (Filename handler);
     Code := generateUniqueString now_code;
     Expiry := now_expiry + 2 * Minute;
     CreatedAt := 0;
     LastUpdated := 0;
     UserID := User_ID user |}.

(** POST /users/files.  [form] is the result of r.FormFile; the instants
    are those of the code generator, of the expiry and of the INSERT. *)
Definition uploadFileHandler (db : DB) (fs : gmap string node)
    (form : FormFile + error) (user : User)
    (now_code now_expiry now_insert : Z) : outcome :=
  match form with
  | inr err => {| out_db := db; out_fs := fs;
                  out_responses := [badRequestResponse err];
                  out_background := [] |}
  | inl handler =>
      let new_file := upload_new_file handler user now_code now_expiry in
      let v := ValidateFile New new_file in
      if negb (Valid v) then
        {| out_db := db; out_fs := fs;
           out_responses := [failedValidationResponse (Errors v)];
           out_background := [] |}
      else
        let '(db', new_file, err) := Insert db now_insert new_file in
        match err with
        | Some err =>
            if String.eqb (Error err) "duplicate path" then
              let v := AddError v "file" "path already exists" in
              {| out_db := db'; out_fs := fs;
                 out_responses := [failedValidationResponse (Errors v)];
                 out_background := [] |}
            else
              {| out_db := db'; out_fs := fs;
                 out_responses := [serverErrorResponse err];
                 out_background := [] |}
        | None =>
            match createFile fs (Content handler) (Path new_file) with
            | (fs', Some err) =>
                {| out_db := db'; out_fs := fs';
                   out_responses := [serverErrorResponse err];
                   out_background := [] |}
            | (fs', None) =>
                (* delete file after expiry or server shutdown *)
                {| out_db := db'; out_fs := fs';
                   out_responses :=
                     [writeJSON StatusAccepted "file" (data_file new_file)];
                   out_background :=
                     [{| timer := 30 * Second;
                         job_path := Path new_file;
                         job_id := ID new_file |}] |}
            end
        end
  end.

(** GET /users/files *)
Definition listUserFilesHandler (db : DB) (user : User) (now : Z)
  : list response :=
  match GetAllFromUser db now user with
  | (_, Some err) => [serverErrorResponse err]
  | (files, None) => [writeJSON StatusOK "files" (data_files files)]
  end.

(** GET /users/files/{id}.  [id_param] is the id as strconv.ParseInt read
    it, [None] when it did not parse. *)
Definition getUserFileHandler (db : DB) (id_param : option Z) (user : User)
    (now : Z) : list response :=
  match id_param with
  | None => [notFoundResponse]
  | Some id =>
      if id <? 1 then [notFoundResponse]
      else
        match GetFromUser db now id user with
        | inr err =>
            if errors_Is err ErrRecordNotFound then [notFoundResponse]
            else [serverErrorResponse err]
        | inl file => [writeJSON StatusOK "file" (data_file file)]
        end
  end.

(** PUT /users/files/{id} *)
Definition updateUserFileHandler (db : DB) (fs : gmap string node)
    (id_param : option Z) (form : FormFile + error) (user : User)
    (now_code now_expiry now_updated now_live : Z) : outcome :=
  let respond db fs rs js :=
    {| out_db := db; out_fs := fs; out_responses := rs;
       out_background := js |} in
  match id_param with
  | None => respond db fs [notFoundResponse] []
  | Some id =>
      if id <? 1 then respond db fs [notFoundResponse] []
      else
        match form with
        | inr err => respond db fs [badRequestResponse err] []
        | inl handler =>
            let file_path := cache_path user (Filename handler) in
            let '(db', updated) :=
              UpdateFromUser db now_expiry now_updated now_live
                             file_path id user
                             (generateUniqueString now_code) in
            match updated with
            | inr err =>
                if errors_Is err ErrRecordNotFound
                then respond db' fs [notFoundResponse] []
                else respond db' fs [serverErrorResponse err] []
            | inl updated_file =>
                (* check if path exists *)
                match os_Stat fs file_path with
                | inr err =>
                    respond db' fs [serverErrorResponse err] []
                | inl _ =>
                    match createFile fs (Content handler) file_path with
                    | (fs', Some err) =>
                        respond db' fs' [serverErrorResponse err] []
                    | (fs', None) =>
                        respond db' fs'
                          [writeJSON StatusAccepted "file"
                                     (data_file updated_file)]
                          [{| timer := 2 * Minute;
                              job_path := file_path;
                              job_id := id |}]
                    end
                end
            end
        end
  end.

(** DELETE /users/files/{id}.  After a failed DeleteFromUser the handler
    writes the server error and goes on, with the empty path. *)
Definition deleteUserFileHandler (db : DB) (fs : gmap string node)
    (id_param : option Z) (user : User) (now : Z) : outcome :=
  let respond db fs rs :=
    {| out_db := db; out_fs := fs; out_responses := rs;
       out_background := [] |} in
  match id_param with
  | None => respond db fs [notFoundResponse]
  | Some id =>
      if id <? 1 then respond db fs [notFoundResponse]
      else
        let '(db', (path, err)) := DeleteFromUser db now id user in
        let r1 := match err with
                  | Some err => [serverErrorResponse err]
                  | None => []
                  end in
        match os_Remove fs path with
        | (fs1, Some err) => respond db' fs1 (r1 ++ [serverErrorResponse err])
        | (fs1, None) =>
            let '(fs2, err) := deleteEmptyFolder fs1 (filepath_Dir path) in
            let r2 := match err with
                      | Some err => [serverErrorResponse err]
                      | None => []
                      end in
            respond db' fs2
              (r1 ++ r2 ++
               [writeJSON StatusOK "message"
                          (data_message "file successfully deleted")])
        end
  end.

(** GET /files/{code} *)
Definition getFileFromCodeHandler (db : DB) (fs : gmap string node)
    (code : string) (now : Z) : list response :=
  match GetFromCode db now code with
  | inr err =>
      if errors_Is err ErrRecordNotFound then [notFoundResponse]
      else [serverErrorResponse err]
  | inl file_data =>
      match os_Open fs (Path file_data) with
      | inr err => [serverErrorResponse err]
      | inl (RegFile content) =>
          [attachment (Name file_data) (len content); ioCopy content]
      | inl Directory =>
          (* a directory opens, and fails when it is read; its own size
             is not part of the model *)
          [attachment (Name file_data) 0;
           serverErrorResponse (PathError "read" (Path file_data) EISDIR)]
      end
  end.

(** Statements of the specification that the code does not satisfy as they
    are written, as predicates on the model. *)

(** Two purges in a row, the second on the state the first leaves. *)
Definition purge_twice (db : DB) (fs : gmap string node) (now1 now2 : Z)
    (file_path : string) (file_id : Z)
  : DB * gmap string node * option error * option error :=
  let '(db1, fs1, err1) :=
    deleteFileInBackground db fs now1 file_path file_id in
  let '(db2, fs2, err2) :=
    deleteFileInBackground db1 fs1 now2 file_path file_id in
  (db2, fs2, err1, err2).

(** "Yields success both times and leaves no residual metadata row or
    blob." *)
Definition purge_leaves_nothing (db : DB) (fs : gmap string node)
    (now1 now2 : Z) (file_path : string) (file_id : Z) : Prop :=
  let '(db2, fs2, err1, err2) :=
    purge_twice db fs now1 now2 file_path file_id in
  err1 = None /\ err2 = None
  /\ (forall r, In r (rows db2) -> ID r <> file_id)
  /\ fs2 !! file_path = None.

(** A folder is pruned when it is absent or is a directory with entries. *)
Definition pruned (fs : gmap string node) (dirPath : string) : Prop :=
  fs !! dirPath = None
  \/ (fs !! dirPath = Some Directory /\ entries fs dirPath <> []).


(** Lowercase letters, uppercase letters and digits. *)
Definition is_alphanumeric (c : ascii) : bool :=
  let n := nat_of_ascii c in
  ((97 <=? n)%nat && (n <=? 122)%nat)
  || ((65 <=? n)%nat && (n <=? 90)%nat)
  || ((48 <=? n)%nat && (n <=? 57)%nat).

End App.

(** * Properties of the file model *)

Section Model.

Context {PG : Postgres}.

(** ** Validation *)

Lemma Valid_New : Valid New = true.
Proof. reflexivity. Qed.

Lemma Valid_AddError v key message : Valid (AddError v key message) = false.
Proof.
  unfold Valid, AddError.
  destruct (Errors v !! key) eqn:E; apply bool_decide_eq_false; simpl.
  - intros H. rewrite H in E. by rewrite lookup_empty in E.
  - apply insert_non_empty.
Qed.

Lemma Errors_AddError_Valid v key message :
  Valid v = true -> Errors (AddError v key message) = {[ key := message ]}.
Proof.
  unfold Valid, AddError. intros H%bool_decide_eq_true.
  rewrite H, lookup_empty. simpl. apply insert_empty.
Qed.

Lemma Valid_Check v ok key message :
  Valid (Check v ok key message) = Valid v && ok.
Proof.
  destruct ok; simpl.
  - by rewrite andb_true_r.
  - by rewrite Valid_AddError, andb_false_r.
Qed.

Lemma Valid_ValidateFile v file :
  Valid (ValidateFile v file)
  = Valid v && (len (Name file) <=? 50) && (Size file <=? 1000000)
    && (len (Code file) =? 8).
Proof. unfold ValidateFile. by rewrite !Valid_Check. Qed.

(** C10: validation enforces upper bounds only.  A file passes exactly
    when its name has at most 50 bytes, its size is at most 1,000,000 and
    its code has 8 bytes; in particular an empty name and a zero or
    negative size pass. *)
Theorem ValidateFile_upper_bounds_only :
  (forall file,
      Valid (ValidateFile New file) = true
      <-> len (Name file) <= 50 /\ Size file <= 1000000
          /\ len (Code file) = 8)
  /\ (forall file,
         Name file = EmptyString -> Size file <= 0 -> len (Code file) = 8 ->
         Valid (ValidateFile New file) = true).
Proof.
  assert (H : forall file,
             Valid (ValidateFile New file) = true
             <-> len (Name file) <= 50 /\ Size file <= 1000000
                 /\ len (Code file) = 8).
  { intros file. rewrite Valid_ValidateFile, Valid_New. simpl.
    rewrite !andb_true_iff, !Z.leb_le, Z.eqb_eq. tauto. }
  split; [exact H|].
  intros file Hname Hsize Hcode. apply H. rewrite Hname.
  repeat split; [unfold len; simpl; lia | lia | exact Hcode].
Qed.

(** ** Strings and the alphabet *)

Lemma length_string_of_list_ascii (l : list ascii) :
  String.length (string_of_list_ascii l) = length l.
Proof. induction l as [|c l IH]; simpl; congruence. Qed.

Lemma letterRunes_length : length letterRunes = 62%nat.
Proof. reflexivity. Qed.

(** ** Liveness filtering *)

Lemma QueryRow_filter {A} (P : A -> bool) (l : list A) (r : A) :
  QueryRow (List.filter P l) = inl r -> In r l /\ P r = true.
Proof.
  destruct (List.filter P l) as [|x l'] eqn:E; simpl; [discriminate|].
  intros [= ->]. apply filter_In. rewrite E. by left.
Qed.

(** What GetFromUser returns is a row of the table with that id and
    owner, live at the time of the query. *)
Lemma GetFromUser_inl db now id u f :
  GetFromUser db now id u = inl f ->
  exists r, In r (rows db) /\ f = Scan8 r /\ ID r = id
            /\ UserID r = User_ID u /\ now < Expiry r.
Proof.
  unfold GetFromUser. destruct (id <? 1); [discriminate|].
  destruct (QueryRow _) as [r|err] eqn:E.
  - intros [= <-]. apply QueryRow_filter in E as [Hin Hw].
    unfold where_id_user_live in Hw.
    rewrite !andb_true_iff, !Z.eqb_eq, Z.ltb_lt in Hw.
    exists r. tauto.
  - by destruct (errors_Is _ _).
Qed.

Lemma GetFromCode_inl db now code f :
  GetFromCode db now code = inl f ->
  exists r, In r (rows db) /\ f = Scan8 r /\ Code r = code
            /\ now < Expiry r.
Proof.
  unfold GetFromCode.
  destruct (QueryRow _) as [r|err] eqn:E.
  - intros [= <-]. apply QueryRow_filter in E as [Hin Hw].
    unfold where_code_live in Hw.
    rewrite andb_true_iff, String.eqb_eq, Z.ltb_lt in Hw.
    exists r. tauto.
  - by destruct (errors_Is _ _).
Qed.

Lemma GetAllFromUser_In db now u f :
  In f (GetAllFromUser db now u).1 ->
  exists r, In r (rows db) /\ f = Scan8 r /\ UserID r = User_ID u
            /\ now < Expiry r.
Proof.
  simpl. rewrite in_map_iff. intros (r & <- & Hin).
  apply filter_In in Hin as [Hin Hw]. unfold where_user_live in Hw.
  rewrite andb_true_iff, Z.eqb_eq, Z.ltb_lt in Hw.
  exists r. tauto.
Qed.

(** C4: a record whose expiry is not after the time of the query is
    returned neither by owner and id, nor by code, nor in the listing,
    whatever the filesystem holds (the queries do not read it). *)
Theorem expired_record_is_excluded db now r :
  Expiry r <= now ->
  (forall id u, GetFromUser db now id u <> inl (Scan8 r))
  /\ (forall code, GetFromCode db now code <> inl (Scan8 r))
  /\ (forall u, ~ In (Scan8 r) (GetAllFromUser db now u).1).
Proof.
  intros Hexp. repeat split.
  - intros id u H. apply GetFromUser_inl in H as (r' & _ & Heq & _ & _ & Hl).
    apply (f_equal Expiry) in Heq. simpl in Heq. lia.
  - intros code H. apply GetFromCode_inl in H as (r' & _ & Heq & _ & Hl).
    apply (f_equal Expiry) in Heq. simpl in Heq. lia.
  - intros u H. apply GetAllFromUser_In in H as (r' & _ & Heq & _ & Hl).
    apply (f_equal Expiry) in Heq. simpl in Heq. lia.
Qed.

(** ** Insertion *)

Lemma existsb_Path_In (l : list File) (r : File) (path : string) :
  In r l -> Path r = path ->
  existsb (fun r' => String.eqb (Path r') path) l = true.
Proof.
  intros Hin Hp. apply existsb_exists. exists r. split; [done|].
  by apply String.eqb_eq.
Qed.

Lemma Insert_duplicate_path db now file r :
  In r (rows db) -> Path r = Path file ->
  Insert db now file
  = ({| rows := rows db; files_id_seq := files_id_seq db + 1 |},
     file, Some ErrDuplicatePath).
Proof.
  intros Hin Hp. unfold Insert, insert_files.
  by rewrite (existsb_Path_In _ r _ Hin Hp).
Qed.

(** Insert either adds one row at the end of the table or leaves the rows
    as they are and reports an error. *)
Lemma Insert_rows db now file :
  match Insert db now file with
  | (db', file', None) =>
      rows db' = rows db ++ [stored file'] /\ ID file' = files_id_seq db
  | (db', _, Some _) => rows db' = rows db
  end.
Proof.
  unfold Insert, insert_files.
  destruct (existsb _ _); [simpl; done|].
  destruct (existsb _ _); [simpl; done|].
  simpl. done.
Qed.

(** ** The conditional update *)

Section Replacement.

Variables (db : DB) (now_expiry now_updated now_live : Z).
Variables (path : string) (id : Z) (u : User) (code : string).

Let hit := where_path_id_user_live path id (User_ID u) now_live.
Let set := set_expiry_updated_code (timestamp0 (now_expiry + 2 * Minute))
                                   (timestamp0 now_updated) code.
Let updated := map (fun r => if hit r then set r else r) (rows db).

Lemma UpdateFromUser_no_match :
  Forall (fun r => hit r = false) (rows db) ->
  UpdateFromUser db now_expiry now_updated now_live path id u code
  = (db, inr ErrRecordNotFound).
Proof.
  intros Hno. rewrite List.Forall_forall in Hno.
  unfold UpdateFromUser, update_files. fold hit set.
  assert (He : existsb hit (rows db) = false).
  { apply not_true_is_false. intros (r & Hin & Hr)%existsb_exists.
    rewrite (Hno r Hin) in Hr. discriminate. }
  assert (Hf : List.filter hit (rows db) = []).
  { destruct (List.filter hit (rows db)) as [|x l] eqn:E; [done|].
    assert (Hx : In x (List.filter hit (rows db))) by (rewrite E; by left).
    apply filter_In in Hx as [Hin Hx]. rewrite (Hno x Hin) in Hx.
    discriminate. }
  assert (Hm : map (fun r => if hit r then set r else r) (rows db)
               = rows db).
  { rewrite <- (map_id (rows db)) at 2. apply map_ext_in.
    intros r Hin. by rewrite (Hno r Hin). }
  rewrite He, Hf, Hm. simpl. by destruct db.
Qed.

Lemma UpdateFromUser_inl db' f :
  UpdateFromUser db now_expiry now_updated now_live path id u code
  = (db', inl f) ->
  rows db' = updated
  /\ files_id_seq db' = files_id_seq db
  /\ exists r, In r (rows db) /\ hit r = true /\ f = set r.
Proof.
  unfold UpdateFromUser, update_files. fold hit set.
  destruct (existsb hit (rows db) && _); [discriminate|].
  destruct (List.filter hit (rows db)) as [|x l] eqn:E; [discriminate|].
  simpl. intros [= <- <-]. repeat split.
  exists x. assert (Hx : In x (List.filter hit (rows db))).
  { rewrite E. by left. }
  apply filter_In in Hx as [Hin Hx]. done.
Qed.

Lemma filter_unique_id (P : File -> bool) (l : list File) (r : File) :
  NoDup (map ID l) -> In r l -> P r = true ->
  (forall x, In x l -> P x = true -> ID x = ID r) ->
  List.filter P l = [r].
Proof.
  induction l as [|y l IH]; simpl; [done|].
  intros Hnd [->|Hin] Hr Hid; inversion Hnd as [|? ? Hy Hnd']; subst.
  - rewrite Hr. f_equal.
    destruct (List.filter P l) as [|x l'] eqn:E; [done|exfalso].
    assert (Hx : In x (List.filter P l)) by (rewrite E; by left).
    apply filter_In in Hx as [Hin Hx].
    apply Hy, list_elem_of_In. rewrite <- (Hid x (or_intror Hin) Hx).
    by apply in_map.
  - destruct (P y) eqn:Ey.
    + exfalso. apply Hy, list_elem_of_In.
      rewrite (Hid y (or_introl eq_refl) Ey). by apply in_map.
    + apply IH; auto.
Qed.

Lemma filter_map_comm {A B} (P : B -> bool) (g : A -> B) (l : list A) :
  List.filter P (map g l) = map g (List.filter (fun x => P (g x)) l).
Proof.
  induction l as [|x l IH]; simpl; [done|].
  destruct (P (g x)); simpl; by rewrite IH.
Qed.

Lemma UpdateFromUser_match r :
  NoDup (map ID (rows db)) ->
  In r (rows db) -> hit r = true ->
  (forall r', In r' (rows db) -> Code r' = code -> r' = r) ->
  UpdateFromUser db now_expiry now_updated now_live path id u code
  = ({| rows := updated; files_id_seq := files_id_seq db |},
     inl (set r)).
Proof.
  intros Hnd Hin Hr Hcode.
  assert (Hid : forall x, In x (rows db) -> hit x = true -> ID x = ID r).
  { intros x _ Hx. unfold hit, where_path_id_user_live in Hx, Hr.
    rewrite !andb_true_iff, !Z.eqb_eq in Hx, Hr. lia. }
  assert (Hf : List.filter hit (rows db) = [r])
    by (by apply filter_unique_id).
  unfold UpdateFromUser, update_files. fold hit set.
  rewrite filter_map_comm.
  rewrite (filter_ext_in _ hit).
  - rewrite Hf. simpl. rewrite andb_false_r. simpl. done.
  - intros x Hx. destruct (hit x) eqn:Ex.
    + simpl. apply String.eqb_refl.
    + apply not_true_is_false. intros Hc%String.eqb_eq.
      rewrite (Hcode x Hx Hc) in Ex. congruence.
Qed.

End Replacement.

(** ** The conditional delete *)

Lemma Delete_tolerated db now id :
  err_other_than (Delete db now id).2 "record not found" = false.
Proof.
  unfold Delete. destruct (id <? 1); [done|]. simpl.
  by destruct (_ =? 0).
Qed.

Lemma Delete_rows db now id r :
  In r (rows (Delete db now id).1) -> In r (rows db).
Proof.
  unfold Delete. destruct (id <? 1); [done|]. simpl.
  destruct (_ =? 0); simpl; by intros [? _]%filter_In.
Qed.

(** After Delete no row with that id is live at the time of the call. *)
Lemma Delete_no_live_row db now id r :
  1 <= id -> In r (rows (Delete db now id).1) -> ID r = id ->
  Expiry r <= now.
Proof.
  intros Hid. unfold Delete.
  assert ((id <? 1) = false) as -> by (apply Z.ltb_ge; lia). simpl.
  intros Hin Hr.
  assert (Hw : negb (where_id_live id now r) = true).
  { by destruct (_ =? 0); simpl in Hin; apply filter_In in Hin as [_ ?]. }
  unfold where_id_live in Hw.
  rewrite negb_true_iff, andb_false_iff, Z.eqb_neq, Z.ltb_ge in Hw. lia.
Qed.

(** A second Delete at a later time finds no row. *)
Lemma Delete_again db now1 now2 id :
  now1 <= now2 ->
  (Delete (Delete db now1 id).1 now2 id).2 = Some ErrRecordNotFound.
Proof.
  intros Hle. destruct (Z.ltb_spec id 1) as [Hlt|Hge].
  - unfold Delete.
    by assert ((id <? 1) = true) as -> by (apply Z.ltb_lt; lia).
  - set (db1 := (Delete db now1 id).1).
    assert (Hnone : List.filter (where_id_live id now2) (rows db1) = []).
    { destruct (List.filter _ (rows db1)) as [|x l] eqn:E; [done|exfalso].
      assert (Hx : In x (List.filter (where_id_live id now2) (rows db1)))
        by (rewrite E; by left).
      apply filter_In in Hx as [Hin Hx]. unfold where_id_live in Hx.
      rewrite andb_true_iff, Z.eqb_eq, Z.ltb_lt in Hx.
      destruct Hx as [Hx1 Hx2].
      pose proof (Delete_no_live_row db now1 id x Hge Hin Hx1). lia. }
    unfold Delete at 1.
    assert ((id <? 1) = false) as -> by (apply Z.ltb_ge; lia).
    simpl. by rewrite Hnone.
Qed.

Lemma ENOENT_remove_message name :
  Error (PathError "remove" name ENOENT)
  = "remove " +:+ name +:+ ": no such file or directory".
Proof. reflexivity. Qed.

Lemma ENOENT_open_message name :
  Error (PathError "open" name ENOENT)
  = "open " +:+ name +:+ ": no such file or directory".
Proof. reflexivity. Qed.

(** ** Delete by owner *)

Lemma DeleteFromUser_no_match db now id u :
  1 <= id ->
  Forall (fun r => where_id_user_live id (User_ID u) now r = false)
         (rows db) ->
  DeleteFromUser db now id u = (db, (EmptyString, Some sql_ErrNoRows)).
Proof.
  intros Hid Hno. rewrite List.Forall_forall in Hno.
  unfold DeleteFromUser, delete_files.
  assert ((id <? 1) = false) as -> by (apply Z.ltb_ge; lia).
  set (cond := where_id_user_live id (User_ID u) now) in *.
  assert (Hf : List.filter cond (rows db) = []).
  { destruct (List.filter cond (rows db)) as [|x l] eqn:E; [done|].
    assert (Hx : In x (List.filter cond (rows db))) by (rewrite E; by left).
    apply filter_In in Hx as [Hin Hx]. rewrite (Hno x Hin) in Hx.
    discriminate. }
  assert (Hk : List.filter (fun r => negb (cond r)) (rows db) = rows db).
  { clear Hf. induction (rows db) as [|x l IH]; simpl; [done|].
    rewrite (Hno x (or_introl eq_refl)). simpl. f_equal.
    apply IH. intros y Hy. apply Hno. by right. }
  rewrite Hf, Hk. simpl. by destruct db.
Qed.

(** ** The constraints of the table *)

Lemma filter_none {A} (P : A -> bool) (l : list A) :
  (forall x, In x l -> P x = false) -> List.filter P l = [].
Proof.
  intros H. destruct (List.filter P l) as [|x l'] eqn:E; [done|].
  assert (Hx : In x (List.filter P l)) by (rewrite E; by left).
  apply filter_In in Hx as [Hin Hx]. rewrite (H x Hin) in Hx. discriminate.
Qed.

Lemma existsb_false_In {A} (P : A -> bool) (l : list A) :
  existsb P l = false -> forall x, In x l -> P x = false.
Proof.
  intros H x Hin. apply not_true_is_false. intros Hx.
  assert (existsb P l = true) by (apply existsb_exists; eauto). congruence.
Qed.

Lemma NoDup_map_filter {A B} (g : A -> B) (P : A -> bool) (l : list A) :
  NoDup (map g l) -> NoDup (map g (List.filter P l)).
Proof.
  induction l as [|x l IH]; simpl; [done|].
  intros [Hx Hl]%NoDup_cons. destruct (P x); simpl; [|auto].
  apply NoDup_cons. split; [|auto].
  intros Hin%list_elem_of_In. apply Hx, list_elem_of_In.
  apply in_map_iff in Hin as (y & <- & Hy).
  apply filter_In in Hy as [Hy _]. by apply in_map.
Qed.

Lemma NoDup_map_snoc {A B} (g : A -> B) (l : list A) (x : A) :
  NoDup (map g l) -> (forall y, In y l -> g y <> g x) ->
  NoDup (map g (l ++ [x])).
Proof.
  intros Hl Hx. rewrite map_app. apply NoDup_app. split; [done|].
  split; [|apply NoDup_singleton].
  intros b Hb%list_elem_of_In Hb'. apply in_map_iff in Hb as (y & <- & Hy).
  apply list_elem_of_In in Hb'. destruct Hb' as [Hb'|[]].
  by apply (Hx y Hy).
Qed.

(** Rows with the same key are the same row. *)
Lemma NoDup_map_inj {A B} (g : A -> B) (l : list A) (x y : A) :
  NoDup (map g l) -> In x l -> In y l -> g x = g y -> x = y.
Proof.
  induction l as [|z l IH]; simpl; [done|].
  intros [Hz Hl]%NoDup_cons [->|Hx] [->|Hy] Hg; auto.
  - exfalso. apply Hz, list_elem_of_In. rewrite Hg. by apply in_map.
  - exfalso. apply Hz, list_elem_of_In. rewrite <- Hg. by apply in_map.
Qed.

Lemma filter_unique_by {A B} (g : A -> B) (P : A -> bool) (l : list A) r :
  NoDup (map g l) -> In r l -> P r = true ->
  (forall x, In x l -> P x = true -> g x = g r) ->
  List.filter P l = [r].
Proof.
  induction l as [|y l IH]; simpl; [done|].
  intros [Hy Hnd]%NoDup_cons [->|Hin] Hr Hid.
  - rewrite Hr. f_equal. apply filter_none. intros x Hx.
    apply not_true_is_false. intros HP. apply Hy, list_elem_of_In.
    rewrite <- (Hid x (or_intror Hx) HP). by apply in_map.
  - destruct (P y) eqn:Ey.
    + exfalso. apply Hy, list_elem_of_In.
      rewrite (Hid y (or_introl eq_refl) Ey). by apply in_map.
    + apply IH; auto.
Qed.

Lemma wf_db_filter db (P : File -> bool) :
  wf_db db ->
  wf_db {| rows := List.filter P (rows db);
           files_id_seq := files_id_seq db |}.
Proof.
  intros (Hi & Hp & Hc & Hb & Hs). repeat split; simpl;
    try by apply NoDup_map_filter.
  - apply List.Forall_forall. intros r [Hr _]%filter_In.
    by apply (proj1 (List.Forall_forall _ _) Hb).
  - done.
Qed.

Lemma wf_db_next db :
  wf_db db ->
  wf_db {| rows := rows db; files_id_seq := files_id_seq db + 1 |}.
Proof.
  intros (Hi & Hp & Hc & Hb & Hs). repeat split; simpl; try done; [|lia].
  eapply Forall_impl; [exact Hb|]. simpl. intros r ?. lia.
Qed.

Lemma Insert_wf db now file : wf_db db -> wf_db (Insert db now file).1.1.
Proof.
  intros Hwf. unfold Insert, insert_files.
  destruct (existsb (fun r => String.eqb (Path r) (Path file)) (rows db))
    eqn:Ep; [simpl; by apply wf_db_next|].
  destruct (existsb (fun r => String.eqb (Code r) (Code file)) (rows db))
    eqn:Ec; [simpl; by apply wf_db_next|].
  destruct Hwf as (Hi & Hp & Hc & Hb & Hs).
  pose proof (proj1 (List.Forall_forall _ _) Hb) as Hb'.
  repeat split; simpl.
  - apply NoDup_map_snoc; [done|]. simpl. intros y Hy.
    specialize (Hb' y Hy). simpl in Hb'. lia.
  - apply NoDup_map_snoc; [done|]. simpl. intros y Hy Heq.
    pose proof (existsb_false_In _ _ Ep y Hy) as Hne. simpl in Hne.
    by rewrite Heq, String.eqb_refl in Hne.
  - apply NoDup_map_snoc; [done|]. simpl. intros y Hy Heq.
    pose proof (existsb_false_In _ _ Ec y Hy) as Hne. simpl in Hne.
    by rewrite Heq, String.eqb_refl in Hne.
  - apply Forall_app. split.
    + eapply Forall_impl; [exact Hb|]. simpl. intros r ?. lia.
    + constructor; [simpl; lia|constructor].
  - lia.
Qed.

(** The codes after an update: distinct when at most one row carries the
    new code. *)
Lemma update_codes_NoDup (hit : File -> bool) (set : File -> File)
    (code : string) (l : list File) :
  (forall r, Code (set r) = code) ->
  NoDup (map Code l) ->
  (length (List.filter (fun r => String.eqb (Code r) code)
                       (map (fun r => if hit r then set r else r) l))
   <= 1)%nat ->
  NoDup (map Code (map (fun r => if hit r then set r else r) l)).
Proof.
  intros Hset. induction l as [|x l IH]; simpl; [done|].
  intros [Hx Hl]%NoDup_cons Hlen.
  set (upd := fun r => if hit r then set r else r) in *.
  change (if hit x then set x else x) with (upd x) in Hlen |- *.
  assert (Hcode : forall y, In y (map upd l) -> Code y = code ->
                            In y (List.filter
                                    (fun r => String.eqb (Code r) code)
                                    (map upd l))).
  { intros y Hy Hc. apply filter_In. split; [done|]. by apply String.eqb_eq. }
  destruct (String.eqb (Code (upd x)) code) eqn:Ex; simpl in Hlen.
  - apply String.eqb_eq in Ex.
    destruct (List.filter _ (map upd l)) as [|z zs] eqn:Ef;
      [|simpl in Hlen; lia].
    apply NoDup_cons. split.
    + intros Hin%list_elem_of_In. apply in_map_iff in Hin as (y & Hy1 & Hy2).
      apply (Hcode y Hy2). congruence.
    + apply IH; [done|]. simpl. lia.
  - apply NoDup_cons. split; [|by apply IH].
    intros Hin%list_elem_of_In. apply in_map_iff in Hin as (y & Hy1 & Hy2).
    apply in_map_iff in Hy2 as (y0 & <- & Hy0).
    assert (Hxx : upd x = x).
    { unfold upd. destruct (hit x) eqn:Eh; [|done].
      unfold upd in Ex. rewrite Eh, Hset, String.eqb_refl in Ex.
      discriminate. }
    rewrite Hxx in *. unfold upd in Hy1. destruct (hit y0).
    + rewrite Hset in Hy1. rewrite <- Hy1, String.eqb_refl in Ex.
      discriminate.
    + apply Hx, list_elem_of_In. rewrite <- Hy1. by apply in_map.
Qed.

Lemma UpdateFromUser_wf db now_expiry now_updated now_live path id u code :
  wf_db db ->
  wf_db (UpdateFromUser db now_expiry now_updated now_live path id u code).1.
Proof.
  intros Hwf. unfold UpdateFromUser, update_files.
  set (hit := where_path_id_user_live path id (User_ID u) now_live).
  set (set' := set_expiry_updated_code (timestamp0 (now_expiry + 2 * Minute))
                                       (timestamp0 now_updated) code).
  set (upd := fun r => if hit r then set' r else r).
  destruct (existsb hit (rows db) && _) eqn:Econd.
  { exact Hwf. }
  assert (Hgoal : wf_db {| rows := map upd (rows db);
                           files_id_seq := files_id_seq db |}).
  { destruct Hwf as (Hi & Hp & Hc & Hb & Hs).
    assert (Hid : map ID (map upd (rows db)) = map ID (rows db)).
    { rewrite map_map. apply map_ext. intros r. unfold upd.
      by destruct (hit r). }
    assert (Hpath : map Path (map upd (rows db)) = map Path (rows db)).
    { rewrite map_map. apply map_ext. intros r. unfold upd.
      by destruct (hit r). }
    repeat split; simpl.
    - by rewrite Hid.
    - by rewrite Hpath.
    - apply andb_false_iff in Econd as [Eno|Elen].
      + assert (map upd (rows db) = rows db) as ->; [|done].
        rewrite <- (map_id (rows db)) at 2. apply map_ext_in.
        intros r Hr. unfold upd.
        by rewrite (existsb_false_In _ _ Eno r Hr).
      + apply (update_codes_NoDup hit set' code); [done|done|].
        apply Z.ltb_ge in Elen. unfold upd in Elen |- *. lia.
    - apply List.Forall_forall. intros r Hr.
      apply in_map_iff in Hr as (r0 & <- & Hr0).
      pose proof (proj1 (List.Forall_forall _ _) Hb r0 Hr0) as H0.
      unfold upd. by destruct (hit r0).
    - done. }
  destruct (QueryRow _) as [r|err]; [done|].
  by destruct (errors_Is _ _).
Qed.

Lemma Delete_wf db now id : wf_db db -> wf_db (Delete db now id).1.
Proof.
  intros Hwf. unfold Delete. destruct (id <? 1); [done|]. simpl.
  destruct (_ =? 0); by apply wf_db_filter.
Qed.

Lemma DeleteFromUser_wf db now id u :
  wf_db db -> wf_db (DeleteFromUser db now id u).1.
Proof.
  intros Hwf. unfold DeleteFromUser. destruct (id <? 1); [done|]. simpl.
  destruct (QueryRow _); by apply wf_db_filter.
Qed.

(** X1: every statement of the file model keeps the constraints of the
    table: after Insert, UpdateFromUser, Delete or DeleteFromUser, whether
    they succeed or report an error, ids are distinct and below the
    sequence, and paths and codes are distinct. *)
Theorem store_constraints_are_kept db :
  wf_db db ->
  (forall now file, wf_db (Insert db now file).1.1)
  /\ (forall now_expiry now_updated now_live path id u code,
         wf_db (UpdateFromUser db now_expiry now_updated now_live
                               path id u code).1)
  /\ (forall now id, wf_db (Delete db now id).1)
  /\ (forall now id u, wf_db (DeleteFromUser db now id u).1).
Proof.
  intros Hwf. split; [|split; [|split]]; intros.
  - by apply Insert_wf.
  - by apply UpdateFromUser_wf.
  - by apply Delete_wf.
  - by apply DeleteFromUser_wf.
Qed.

(** ** Lookups that succeed *)

Lemma GetFromCode_found db now r :
  NoDup (map Code (rows db)) -> In r (rows db) -> now < Expiry r ->
  GetFromCode db now (Code r) = inl (Scan8 r).
Proof.
  intros Hc Hin Hlive. unfold GetFromCode.
  rewrite (filter_unique_by Code _ _ r); [done|done|done| |].
  - unfold where_code_live. rewrite String.eqb_refl. simpl.
    by apply Z.ltb_lt.
  - intros x _ Hx. unfold where_code_live in Hx.
    by apply andb_true_iff in Hx as [Hx%String.eqb_eq _].
Qed.

Lemma GetFromUser_found db now r u :
  NoDup (map ID (rows db)) -> In r (rows db) -> 1 <= ID r ->
  UserID r = User_ID u -> now < Expiry r ->
  GetFromUser db now (ID r) u = inl (Scan8 r).
Proof.
  intros Hi Hin Hid Hu Hlive. unfold GetFromUser.
  assert ((ID r <? 1) = false) as -> by (apply Z.ltb_ge; lia).
  rewrite (filter_unique_by ID _ _ r); [done|done|done| |].
  - unfold where_id_user_live. rewrite Hu, !Z.eqb_refl. simpl.
    by apply Z.ltb_lt.
  - intros x _ Hx. unfold where_id_user_live in Hx.
    rewrite !andb_true_iff, !Z.eqb_eq in Hx. tauto.
Qed.

Lemma GetAllFromUser_found db now r u :
  In r (rows db) -> UserID r = User_ID u -> now < Expiry r ->
  In (Scan8 r) (GetAllFromUser db now u).1.
Proof.
  intros Hin Hu Hlive. simpl. apply in_map, filter_In. split; [done|].
  unfold where_user_live. rewrite Hu, Z.eqb_refl. simpl. by apply Z.ltb_lt.
Qed.

(** What a successful Insert returns and stores. *)
Lemma Insert_ok db now file db' file' :
  Insert db now file = (db', file', None) ->
  rows db' = rows db ++ [stored file']
  /\ files_id_seq db' = files_id_seq db + 1
  /\ file' = {| ID := files_id_seq db; Name := Name file; Size := Size file;
                Path := Path file; Code := Code file; Expiry := Expiry file;
                CreatedAt := timestamp0 now; LastUpdated := timestamp0 now;
                UserID := UserID file |}
  /\ (forall r, In r (rows db) -> Path r <> Path file)
  /\ (forall r, In r (rows db) -> Code r <> Code file).
Proof.
  unfold Insert, insert_files.
  destruct (existsb (fun r => String.eqb (Path r) (Path file)) (rows db))
    eqn:Ep; [simpl; discriminate|].
  destruct (existsb (fun r => String.eqb (Code r) (Code file)) (rows db))
    eqn:Ec; [simpl; discriminate|].
  intros [= <- <-]. simpl. repeat split.
  - intros r Hr Heq. pose proof (existsb_false_In _ _ Ep r Hr) as Hne.
    simpl in Hne. by rewrite Heq, String.eqb_refl in Hne.
  - intros r Hr Heq. pose proof (existsb_false_In _ _ Ec r Hr) as Hne.
    simpl in Hne. by rewrite Heq, String.eqb_refl in Hne.
Qed.

(** X2: insert, then look up.  On a table that meets its constraints, a
    file that Insert has accepted carries the id of the sequence, the time
    of the insert as the timestamp columns hold it, and the expiry the
    caller gave it; its row holds the expiry as the column converts it.
    The row is returned by its code, by its id and owner, and in the
    listing of its owner, at any time before the expiry of the row, and by
    its code no longer from that expiry on. *)
Theorem inserted_file_is_retrievable db now file db' file' now' u :
  wf_db db ->
  Insert db now file = (db', file', None) ->
  now' < timestamp0 (Expiry file) ->
  User_ID u = UserID file ->
  GetFromCode db' now' (Code file) = inl (Scan8 (stored file'))
  /\ GetFromUser db' now' (ID file') u = inl (Scan8 (stored file'))
  /\ In (Scan8 (stored file')) (GetAllFromUser db' now' u).1
  /\ ID file' = files_id_seq db
  /\ CreatedAt file' = timestamp0 now
  /\ LastUpdated file' = timestamp0 now
  /\ Expiry file' = Expiry file
  /\ Expiry (stored file') = timestamp0 (Expiry file)
  /\ (forall t, timestamp0 (Expiry file) <= t ->
      GetFromCode db' t (Code file) = inr ErrRecordNotFound).
Proof.
  intros Hwf Hins Hlive Hu.
  pose proof (Insert_wf db now file Hwf) as Hwf'. rewrite Hins in Hwf'.
  simpl in Hwf'. destruct Hwf' as (Hi & _ & Hc & _ & _).
  destruct Hwf as (_ & _ & _ & _ & Hseq).
  apply Insert_ok in Hins as (Hrows & _ & Hfile & _ & Hfresh).
  assert (Hin : In (stored file') (rows db')).
  { rewrite Hrows. apply in_or_app. right. by left. }
  assert (Hexp : Expiry (stored file') = timestamp0 (Expiry file))
    by (by rewrite Hfile).
  assert (Hcode : Code (stored file') = Code file) by (by rewrite Hfile).
  assert (Huid : UserID (stored file') = User_ID u) by (by rewrite Hfile).
  assert (Hid : ID (stored file') = files_id_seq db) by (by rewrite Hfile).
  assert (Hid' : ID file' = ID (stored file')) by done.
  rewrite Hid', <- Hcode.
  split; [apply GetFromCode_found; [done|done|lia]|].
  split; [apply GetFromUser_found; [done|done|lia|done|lia]|].
  split; [apply GetAllFromUser_found; [done|done|lia]|].
  split; [done|].
  split; [by rewrite Hfile|].
  split; [by rewrite Hfile|].
  split; [by rewrite Hfile|].
  split; [done|].
  intros t Ht. unfold GetFromCode. rewrite filter_none; [done|].
  intros r Hr. rewrite Hrows in Hr. unfold where_code_live.
  apply in_app_or in Hr as [Hr|[<-|[]]].
  - apply andb_false_iff. left. apply String.eqb_neq. rewrite Hcode.
    by apply Hfresh.
  - apply andb_false_iff. right. apply Z.ltb_ge. lia.
Qed.

(** X3: a live record is found.  On a table with distinct codes a live row
    is what GetFromCode returns for its code; with distinct ids it is what
    GetFromUser returns for its id and its owner, and it is in the listing
    of its owner. *)
Theorem live_record_is_found db now r u :
  NoDup (map ID (rows db)) ->
  NoDup (map Code (rows db)) ->
  In r (rows db) ->
  now < Expiry r ->
  GetFromCode db now (Code r) = inl (Scan8 r)
  /\ (1 <= ID r -> UserID r = User_ID u ->
      GetFromUser db now (ID r) u = inl (Scan8 r)
      /\ In (Scan8 r) (GetAllFromUser db now u).1).
Proof.
  intros Hi Hc Hin Hlive. split.
  - by apply GetFromCode_found.
  - intros Hid Hu. split.
    + by apply GetFromUser_found.
    + by apply GetAllFromUser_found.
Qed.

(** ** What the deletes remove *)

Lemma Delete_In db now id r :
  In r (rows (Delete db now id).1)
  <-> In r (rows db) /\ ~ (1 <= id /\ ID r = id /\ now < Expiry r).
Proof.
  unfold Delete. destruct (Z.ltb_spec id 1) as [Hlt|Hge].
  - simpl. split; [intros H; split; [done|lia]|tauto].
  - assert (Hrows : rows (let '(db', deleted) :=
                            delete_files db (where_id_live id now) in
                          if Z.of_nat (length deleted) =? 0
                          then (db', Some ErrRecordNotFound)
                          else (db', None)).1
                    = List.filter (fun r => negb (where_id_live id now r))
                                  (rows db)).
    { simpl. by destruct (_ =? 0). }
    rewrite Hrows, filter_In. unfold where_id_live.
    rewrite negb_true_iff, andb_false_iff, Z.eqb_neq, Z.ltb_ge.
    split; intros [Hin H]; (split; [done|]); lia.
Qed.

(** X4: Delete removes the live rows with the given id and nothing else: a
    row stays exactly when it has another id, or has expired, or the id is
    below 1.  The error is nil exactly when a row was removed, and is
    ErrRecordNotFound otherwise; the sequence is not touched. *)
Theorem Delete_removes_live_rows_of_id db now id :
  (forall r, In r (rows (Delete db now id).1)
             <-> In r (rows db)
                 /\ ~ (1 <= id /\ ID r = id /\ now < Expiry r))
  /\ ((Delete db now id).2 = None
      <-> exists r, In r (rows db) /\ 1 <= id /\ ID r = id
                    /\ now < Expiry r)
  /\ ((Delete db now id).2 <> None ->
      (Delete db now id).2 = Some ErrRecordNotFound)
  /\ files_id_seq (Delete db now id).1 = files_id_seq db.
Proof.
  split; [intros r; apply Delete_In|].
  unfold Delete. destruct (Z.ltb_spec id 1) as [Hlt|Hge]; simpl.
  - repeat split; try done. intros (r & _ & H & _). lia.
  - destruct (List.filter (where_id_live id now) (rows db)) as [|x l] eqn:E;
      simpl.
    + repeat split; try done. intros (r & Hin & _ & Hr & Hl). exfalso.
      assert (Hx : In r (List.filter (where_id_live id now) (rows db))).
      { apply filter_In. split; [done|]. unfold where_id_live.
        rewrite andb_true_iff, Z.eqb_eq, Z.ltb_lt. done. }
      by rewrite E in Hx.
    + repeat split; try done. intros _. exists x.
      assert (Hx : In x (List.filter (where_id_live id now) (rows db)))
        by (rewrite E; by left).
      apply filter_In in Hx as [Hin Hx]. unfold where_id_live in Hx.
      rewrite andb_true_iff, Z.eqb_eq, Z.ltb_lt in Hx. tauto.
Qed.

Lemma DeleteFromUser_own_row db now u r :
  NoDup (map ID (rows db)) ->
  In r (rows db) ->
  1 <= ID r ->
  UserID r = User_ID u ->
  now < Expiry r ->
  exists db',
    DeleteFromUser db now (ID r) u = (db', (Path r, None))
    /\ files_id_seq db' = files_id_seq db
    /\ (forall r', In r' (rows db') <-> In r' (rows db) /\ r' <> r).
Proof.
  intros Hi Hin Hid Hu Hlive. unfold DeleteFromUser, delete_files.
  assert ((ID r <? 1) = false) as -> by (apply Z.ltb_ge; lia).
  set (cond := where_id_user_live (ID r) (User_ID u) now).
  assert (Hr : cond r = true).
  { unfold cond, where_id_user_live. rewrite Hu, !Z.eqb_refl. simpl.
    by apply Z.ltb_lt. }
  assert (Hkey : forall x, In x (rows db) -> cond x = true -> ID x = ID r).
  { intros x _ Hx. unfold cond, where_id_user_live in Hx.
    rewrite !andb_true_iff, !Z.eqb_eq in Hx. tauto. }
  rewrite (filter_unique_by ID cond _ r Hi Hin Hr Hkey). simpl.
  eexists. split; [reflexivity|]. split; [done|]. simpl.
  intros r'. rewrite filter_In, negb_true_iff. split.
  - intros [Hin' Hc]. split; [done|]. intros ->. congruence.
  - intros [Hin' Hne]. split; [done|]. apply not_true_is_false. intros Hc.
    apply Hne. apply (NoDup_map_inj ID (rows db)); auto.
Qed.

(** X5: DeleteFromUser of a live row of the caller, on a table with distinct
    ids, returns the path of that row and removes that row and no other. *)
Theorem DeleteFromUser_removes_own_row db now u r :
  NoDup (map ID (rows db)) ->
  In r (rows db) ->
  1 <= ID r ->
  UserID r = User_ID u ->
  now < Expiry r ->
  exists db',
    DeleteFromUser db now (ID r) u = (db', (Path r, None))
    /\ files_id_seq db' = files_id_seq db
    /\ (forall r', In r' (rows db') <-> In r' (rows db) /\ r' <> r).
Proof. apply DeleteFromUser_own_row. Qed.

(** X6: DeleteFromUser never removes a row of another owner, a row with
    another id or an expired row, whatever it returns. *)
Theorem DeleteFromUser_spares_other_rows db now id u r :
  In r (rows db) ->
  UserID r <> User_ID u \/ ID r <> id \/ Expiry r <= now ->
  In r (rows (DeleteFromUser db now id u).1).
Proof.
  intros Hin Hr. unfold DeleteFromUser, delete_files.
  destruct (id <? 1); [done|].
  assert (Hkeep : In r (List.filter
                          (fun r => negb (where_id_user_live id (User_ID u)
                                                             now r))
                          (rows db))).
  { apply filter_In. split; [done|]. unfold where_id_user_live.
    rewrite negb_true_iff, !andb_false_iff, !Z.eqb_neq, Z.ltb_ge. tauto. }
  by destruct (QueryRow _).
Qed.

(** ** What the read handlers answer *)

Lemma GetFromUser_not_found db now id u :
  Forall (fun r => where_id_user_live id (User_ID u) now r = false)
         (rows db) ->
  GetFromUser db now id u = inr ErrRecordNotFound.
Proof.
  intros Hno. rewrite List.Forall_forall in Hno. unfold GetFromUser.
  destruct (id <? 1); [done|]. by rewrite (filter_none _ _ Hno).
Qed.

Lemma GetFromUser_error db now id u err :
  GetFromUser db now id u = inr err -> err = ErrRecordNotFound.
Proof.
  unfold GetFromUser. destruct (id <? 1); [by intros [= <-]|].
  destruct (List.filter _ _); simpl; [by intros [= <-]|discriminate].
Qed.

Lemma GetFromCode_not_found db now code :
  Forall (fun r => where_code_live code now r = false) (rows db) ->
  GetFromCode db now code = inr ErrRecordNotFound.
Proof.
  intros Hno. rewrite List.Forall_forall in Hno. unfold GetFromCode.
  by rewrite (filter_none _ _ Hno).
Qed.

(** X7: retrieval by owner and id has two answers.  It is 200 with a live
    row of the caller that has the id, or it is not-found: for an id that
    does not parse or is below 1, and whenever no live row has the id and
    the owner of the request, be the file of someone else, expired or
    absent.  It never answers with a server error. *)
Theorem getUserFileHandler_found_or_not_found db id_param u now :
  (getUserFileHandler db id_param u now = [notFoundResponse]
   \/ exists id r,
        id_param = Some id /\ In r (rows db) /\ ID r = id
        /\ UserID r = User_ID u /\ now < Expiry r
        /\ getUserFileHandler db id_param u now
           = [writeJSON StatusOK "file" (data_file (Scan8 r))])
  /\ ((forall id, id_param = Some id ->
                  id < 1
                  \/ Forall (fun r => where_id_user_live id (User_ID u) now r
                                      = false) (rows db)) ->
      getUserFileHandler db id_param u now = [notFoundResponse]).
Proof.
  unfold getUserFileHandler. destruct id_param as [id|]; [|by split; [left|]].
  destruct (Z.ltb_spec id 1) as [Hlt|Hge]; [by split; [left|]|].
  split.
  - destruct (GetFromUser db now id u) as [f|err] eqn:E.
    + right. apply GetFromUser_inl in E as (r & Hin & -> & Hid & Hu & Hl).
      exists id, r. done.
    + left. by rewrite (GetFromUser_error _ _ _ _ _ E).
  - intros H. destruct (H id eq_refl) as [Hlt|Hno]; [lia|].
    by rewrite (GetFromUser_not_found _ _ _ _ Hno).
Qed.

(** X8: the listing answers 200 with the live rows of the caller, in the
    order of the table and without their owner id: a file is listed exactly
    when it is the scan of a row of the caller whose expiry is after the
    time of the request. *)
Theorem listUserFilesHandler_lists_live_rows_of_owner db u now :
  exists files,
    listUserFilesHandler db u now
    = [writeJSON StatusOK "files" (data_files files)]
    /\ files = map Scan8 (List.filter
                            (fun r => (UserID r =? User_ID u)
                                      && (now <? Expiry r)) (rows db))
    /\ (forall f, In f files
                  <-> exists r, In r (rows db) /\ f = Scan8 r
                                /\ UserID r = User_ID u /\ now < Expiry r)
    /\ Forall (fun f => UserID f = 0) files.
Proof.
  eexists. split; [reflexivity|]. split; [reflexivity|]. split.
  - intros f. split.
    + apply (GetAllFromUser_In db now u f).
    + intros (r & Hin & -> & Hu & Hl).
      by apply (GetAllFromUser_found db now r u).
  - apply List.Forall_forall. intros f (r & <- & _)%in_map_iff. done.
Qed.

(** ** What a replacement keeps *)

(** X23: what a replacement keeps.  The file UpdateFromUser returns is a row
    of the table with the id, the path and the owner of the request; its
    name, its size and its creation time are those the row had, so the
    recorded size is not that of the new blob. *)
Theorem UpdateFromUser_keeps_name_and_size
    db now_expiry now_updated now_live path id u code db' f :
  UpdateFromUser db now_expiry now_updated now_live path id u code
  = (db', inl f) ->
  exists r,
    In r (rows db) /\ In f (rows db')
    /\ ID f = id /\ ID r = id
    /\ Path f = path /\ UserID f = User_ID u
    /\ Name f = Name r /\ Size f = Size r /\ CreatedAt f = CreatedAt r
    /\ now_live < Expiry r.
Proof.
  intros H. apply UpdateFromUser_inl in H as (Hrows & _ & r & Hin & Hhit & ->).
  exists r. split; [done|]. split.
  { rewrite Hrows. apply in_map_iff. exists r. by rewrite Hhit. }
  unfold where_path_id_user_live in Hhit.
  rewrite !andb_true_iff, String.eqb_eq, !Z.eqb_eq, Z.ltb_lt in Hhit.
  simpl. tauto.
Qed.
End Model.

(** * Properties of the helpers and of the handlers *)

Section Properties.

Variable filepath_Dir : string -> string.
Variable Rand : Type.
Variable rand_New : Z -> Rand.
Variable Intn : Rand -> Z -> Z * Rand.
Context {PG : Postgres} {GO : GoToolchain}.

(** ** Retrieval with a missing blob *)


(** ** Retrieval by code *)

(** X9: retrieval by code.  A code that no live row has is answered with
    not-found, whatever the filesystem holds; for a live row of a table
    with distinct codes whose path holds a regular file, the answer is the
    download of that file under the name of the record, its length being
    the length of the blob. *)
Theorem getFileFromCodeHandler_download
    db (fs : gmap string node) code now :
  (Forall (fun r => where_code_live code now r = false) (rows db) ->
   getFileFromCodeHandler filepath_Dir db fs code now = [notFoundResponse])
  /\ (forall r content,
         NoDup (map Code (rows db)) -> In r (rows db) -> Code r = code ->
         now < Expiry r -> fs !! Path r = Some (RegFile content) ->
         getFileFromCodeHandler filepath_Dir db fs code now
         = [attachment (Name r) (len content); ioCopy content]).
Proof.
  split.
  - intros Hno. unfold getFileFromCodeHandler.
    by rewrite (GetFromCode_not_found _ _ _ Hno).
  - intros r content Hc Hin <- Hl Hblob. unfold getFileFromCodeHandler.
    rewrite (GetFromCode_found _ _ _ Hc Hin Hl). unfold os_Open. simpl.
    by rewrite Hblob.
Qed.

(** ** The code generator *)

Lemma fill_runes_length n r : length (fill_runes Rand Intn n r) = n.
Proof.
  revert r. induction n as [|n IH]; intros r; cbn [fill_runes]; [done|].
  destruct (Intn r _) as [i r']. cbn [length]. by rewrite IH.
Qed.

Lemma fill_runes_letters :
  (forall r n, 0 < n -> 0 <= (Intn r n).1 < n) ->
  forall n r, Forall (fun c => In c letterRunes) (fill_runes Rand Intn n r).
Proof.
  intros Hrange n. induction n as [|n IH]; intros r; cbn [fill_runes].
  - constructor.
  - pose proof (Hrange r (Z.of_nat (length letterRunes))) as Hi.
    destruct (Intn r _) as [i r']. cbn [fst] in Hi.
    rewrite letterRunes_length in Hi.
    constructor; [|apply IH].
    apply nth_In. rewrite letterRunes_length. lia.
Qed.

Lemma generateUniqueString_length now :
  String.length (generateUniqueString Rand rand_New Intn now) = 8%nat.
Proof.
  unfold generateUniqueString.
  by rewrite length_string_of_list_ascii, fill_runes_length.
Qed.

(** C9: every code has exactly 8 characters, each of them one of the 62
    symbols of the alphabet, which are the lowercase letters, the
    uppercase letters and the digits.  [Intn r n] is assumed to return an
    index below [n], as math/rand documents. *)
Theorem generateUniqueString_alphabet :
  (forall r n, 0 < n -> 0 <= (Intn r n).1 < n) ->
  forall now,
    String.length (generateUniqueString Rand rand_New Intn now) = 8%nat
    /\ Forall (fun c => In c letterRunes)
              (list_ascii_of_string
                 (generateUniqueString Rand rand_New Intn now))
    /\ length letterRunes = 62%nat
    /\ NoDup letterRunes
    /\ forallb is_alphanumeric letterRunes = true.
Proof.
  intros Hrange now. split; [apply generateUniqueString_length|].
  split.
  { unfold generateUniqueString.
    rewrite list_ascii_of_string_of_list_ascii.
    by apply fill_runes_letters. }
  split; [reflexivity|]. split; [|reflexivity].
  apply (bool_decide_unpack _). vm_compute. reflexivity.
Qed.

(** ** Creation and path conflicts *)

Lemma upload_new_file_valid handler user now_code now_expiry :
  len (Filename handler) <= 50 -> FormSize handler <= 1000000 ->
  Valid (ValidateFile New (upload_new_file Rand rand_New Intn handler user
                                           now_code now_expiry))
  = true.
Proof.
  intros Hn Hs. rewrite Valid_ValidateFile, Valid_New. cbn [andb].
  rewrite !andb_true_iff, !Z.leb_le, Z.eqb_eq.
  cbn [upload_new_file Name Size Code].
  repeat split; [done|done|].
  unfold len. by rewrite generateUniqueString_length.
Qed.

(** C5: the record is inserted before the blob is written: an upload
    whose insert reports an error leaves the filesystem as it was and
    schedules nothing.  When a row of the table already has the path of the
    upload, Insert reports ErrDuplicatePath, the handler answers with the
    validation error "path already exists", and neither the rows of the
    table nor the filesystem change. *)
Theorem duplicate_path_fails_before_blob_write
    db fs handler user now_code now_expiry now_insert :
  let new_file :=
    upload_new_file Rand rand_New Intn handler user now_code now_expiry in
  let o := uploadFileHandler filepath_Dir Rand rand_New Intn
                             db fs (inl handler) user
                             now_code now_expiry now_insert in
  (forall err,
      (Insert db now_insert new_file).2 = Some err ->
      out_fs o = fs /\ out_background o = [])
  /\ (forall r,
         In r (rows db) ->
         Path r = cache_path user (Filename handler) ->
         len (Filename handler) <= 50 ->
         FormSize handler <= 1000000 ->
         (Insert db now_insert new_file).2 = Some ErrDuplicatePath
         /\ out_responses o
            = [failedValidationResponse
                 {[ "file" := "path already exists" ]}]
         /\ out_fs o = fs
         /\ rows (out_db o) = rows db
         /\ In r (rows (out_db o))
         /\ out_background o = []).
Proof.
  intros new_file o. split.
  - intros err. subst o. unfold uploadFileHandler. fold new_file.
    destruct (negb _); [done|].
    destruct (Insert db now_insert new_file) as [[db' file'] [e|]];
      [|discriminate].
    intros _. by destruct (String.eqb _ _).
  - intros r Hin Hp Hn Hs.
    assert (Hins := Insert_duplicate_path db now_insert new_file r Hin Hp).
    assert (Hv := upload_new_file_valid handler user now_code now_expiry
                                        Hn Hs).
    subst o. unfold uploadFileHandler. fold new_file in Hv |- *.
    rewrite Hv, Hins. simpl. repeat split; try done.
    by rewrite (Errors_AddError_Valid _ _ _ Hv).
Qed.

(** ** Replacement *)

(** C6: a replacement is one update conditioned on path, id, owner and
    liveness.  When no row satisfies the condition the method returns
    ErrRecordNotFound and the table is as before, and the handler answers
    not-found.  When it returns a file, every row that satisfied the
    condition, and no other, has its expiry set to the first clock reading
    plus two minutes and its last_updated to the second, as the timestamp
    columns hold them, and its code to the given one, and the file returned
    is such a row; with unique ids and a code no other row has, the row
    that satisfies the condition is updated and returned.  The handler runs
    this update once, with a freshly generated code, and the table it
    leaves is the table the update leaves, whatever it answers: when it
    accepts, the record of its answer is the updated row, and it accepts
    whenever the row matches and the blob is in place and is written. *)
Theorem replacement_is_one_conditional_update
    db now_expiry now_updated now_live path id u code :
  let hit := where_path_id_user_live path id (User_ID u) now_live in
  let set := set_expiry_updated_code (timestamp0 (now_expiry + 2 * Minute))
                                     (timestamp0 now_updated) code in
  let updated := map (fun r => if hit r then set r else r) (rows db) in
  (Forall (fun r => hit r = false) (rows db) ->
   UpdateFromUser db now_expiry now_updated now_live path id u code
   = (db, inr ErrRecordNotFound))
  /\ (forall db' f,
         UpdateFromUser db now_expiry now_updated now_live path id u code
         = (db', inl f) ->
         rows db' = updated
         /\ (exists r, In r (rows db) /\ hit r = true /\ f = set r)
         /\ Expiry f = timestamp0 (now_expiry + 2 * Minute)
         /\ LastUpdated f = timestamp0 now_updated
         /\ Code f = code)
  /\ (forall r,
         NoDup (map ID (rows db)) -> In r (rows db) -> hit r = true ->
         (forall r', In r' (rows db) -> Code r' = code -> r' = r) ->
         UpdateFromUser db now_expiry now_updated now_live path id u code
         = ({| rows := updated; files_id_seq := files_id_seq db |},
            inl (set r)))
  /\ (forall fs handler now_code,
         let o := updateUserFileHandler filepath_Dir Rand rand_New Intn
                    db fs (Some id) (inl handler) u
                    now_code now_expiry now_updated now_live in
         1 <= id ->
         path = cache_path u (Filename handler) ->
         code = generateUniqueString Rand rand_New Intn now_code ->
         out_db o
         = (UpdateFromUser db now_expiry now_updated now_live path id u
                           code).1
         /\ (Forall (fun r => hit r = false) (rows db) ->
             o = {| out_db := db; out_fs := fs;
                    out_responses := [notFoundResponse];
                    out_background := [] |})
         /\ (forall f,
                In (writeJSON StatusAccepted "file" (data_file f))
                   (out_responses o) ->
                rows (out_db o) = updated
                /\ (exists r, In r (rows db) /\ hit r = true /\ f = set r)
                /\ Code f = generateUniqueString Rand rand_New Intn now_code
                /\ Expiry f = timestamp0 (now_expiry + 2 * Minute)
                /\ LastUpdated f = timestamp0 now_updated)
         /\ (forall r n fs',
                NoDup (map ID (rows db)) -> In r (rows db) ->
                hit r = true ->
                (forall r', In r' (rows db) -> Code r' = code -> r' = r) ->
                fs !! path = Some n ->
                createFile filepath_Dir fs (Content handler) path
                = (fs', None) ->
                o = {| out_db := {| rows := updated;
                                    files_id_seq := files_id_seq db |};
                       out_fs := fs';
                       out_responses :=
                         [writeJSON StatusAccepted "file"
                                    (data_file (set r))];
                       out_background :=
                         [{| timer := 2 * Minute; job_path := path;
                             job_id := id |}] |})).
Proof.
  intros hit set updated.
  assert (Hinl : forall db' f,
             UpdateFromUser db now_expiry now_updated now_live path id u code
             = (db', inl f) ->
             rows db' = updated
             /\ (exists r, In r (rows db) /\ hit r = true /\ f = set r)
             /\ Expiry f = timestamp0 (now_expiry + 2 * Minute)
             /\ LastUpdated f = timestamp0 now_updated
             /\ Code f = code).
  { intros db' f H. apply UpdateFromUser_inl in H as (Hrows & _ & r & Hr).
    split; [exact Hrows|]. split; [by exists r|].
    destruct Hr as (_ & _ & ->). done. }
  split; [apply UpdateFromUser_no_match|].
  split; [exact Hinl|].
  split; [intros r; apply UpdateFromUser_match|].
  intros fs handler now_code o Hid Hpath Hcode.
  assert (Hlt : (id <? 1) = false) by (apply Z.ltb_ge; lia).
  subst o. unfold updateUserFileHandler. rewrite Hlt, <- Hpath, <- Hcode.
  split; [|split; [|split]].
  - destruct (UpdateFromUser _ _ _ _ _ _ _ _) as [db' [g|err]].
    + destruct (os_Stat _ _ _); [|done].
      by destruct (createFile filepath_Dir _ _ _) as [fs' [err|]].
    + by destruct (errors_Is _ _).
  - intros Hno.
    by rewrite (UpdateFromUser_no_match _ _ _ _ _ _ _ _ Hno).
  - intros f.
    destruct (UpdateFromUser _ _ _ _ _ _ _ _) as [db' [g|err]] eqn:E.
    + destruct (Hinl _ _ eq_refl) as (Hrows & Hr & He & Hl & Hc).
      destruct (os_Stat _ _ _); [|simpl; by intros [|[]]].
      destruct (createFile filepath_Dir _ _ _) as [fs' [err|]]; simpl.
      * by intros [|[]].
      * intros [[= <-]|[]]. done.
    + destruct (errors_Is _ _); simpl; by intros [|[]].
  - intros r n fs' Hnd Hin Hhit Hfresh Hblob Hcreate.
    rewrite (UpdateFromUser_match _ _ _ _ _ _ _ _ r Hnd Hin Hhit Hfresh).
    unfold os_Stat. by rewrite Hblob, Hcreate.
Qed.

(** ** The way to a path *)

Lemma way_errno fuel (fs : gmap string node) path e :
  way filepath_Dir fuel fs path = Some e -> e = ENOENT \/ e = ENOTDIR.
Proof.
  revert path e. induction fuel as [|fuel IH]; intros path e; simpl;
    [discriminate|].
  destruct (String.eqb _ path); [discriminate|].
  destruct (way filepath_Dir fuel fs (filepath_Dir path)) as [e'|] eqn:E.
  - intros [= <-]. by apply (IH _ _ E).
  - destruct (String.eqb _ _); [discriminate|].
    destruct (fs !! filepath_Dir path) as [[c|]|]; [|discriminate|];
      intros [= <-]; auto.
Qed.

(** Removing entries puts no regular file on a way. *)
Lemma way_sub fuel (fs fs' : gmap string node) path :
  (forall p, fs' !! p = fs !! p \/ fs' !! p = None) ->
  (way filepath_Dir fuel fs path = Some ENOENT ->
   way filepath_Dir fuel fs' path = Some ENOENT)
  /\ (way filepath_Dir fuel fs path = None ->
      way filepath_Dir fuel fs' path <> Some ENOTDIR).
Proof.
  intros Hsub. revert path. induction fuel as [|fuel IH]; intros path; simpl;
    [split; [discriminate|done]|].
  destruct (String.eqb _ path); [split; [discriminate|done]|].
  destruct (IH (filepath_Dir path)) as [IH1 IH2].
  destruct (way filepath_Dir fuel fs (filepath_Dir path)) as [e|] eqn:E.
  - split; [|discriminate]. intros [= ->]. by rewrite (IH1 eq_refl).
  - specialize (IH2 eq_refl).
    destruct (way filepath_Dir fuel fs' (filepath_Dir path)) as [e'|] eqn:E'.
    + destruct (way_errno _ _ _ _ E') as [-> | ->]; [|done].
      split; [done|discriminate].
    + destruct (String.eqb _ _); [split; [discriminate|done]|].
      destruct (Hsub (filepath_Dir path)) as [-> | ->].
      * destruct (fs !! filepath_Dir path) as [[c|]|];
          split; done || discriminate.
      * destruct (fs !! filepath_Dir path) as [[c|]|];
          split; done || discriminate.
Qed.

Lemma no_file_on_the_way_sub (fs fs' : gmap string node) path :
  (forall p, fs' !! p = fs !! p \/ fs' !! p = None) ->
  no_file_on_the_way filepath_Dir fs path ->
  no_file_on_the_way filepath_Dir fs' path.
Proof.
  unfold no_file_on_the_way. intros Hsub Hw.
  destruct (way_sub (String.length path) fs fs' path Hsub) as [H1 H2].
  destruct (way filepath_Dir (String.length path) fs path) as [e|] eqn:E.
  - destruct (way_errno _ _ _ _ E) as [-> | ->]; [|done].
    by rewrite (H1 eq_refl).
  - by apply H2.
Qed.

Lemma no_file_on_the_way_errno (fs : gmap string node) path :
  no_file_on_the_way filepath_Dir fs path ->
  lookup_errno filepath_Dir fs path = ENOENT.
Proof.
  unfold no_file_on_the_way, lookup_errno. intros Hw.
  destruct (way filepath_Dir (String.length path) fs path) as [e|] eqn:E;
    [|done].
  by destruct (way_errno _ _ _ _ E) as [-> | ->].
Qed.

(** The error number of a call on a path that is not there. *)
Lemma lookup_errno_cases (fs : gmap string node) path :
  (no_file_on_the_way filepath_Dir fs path ->
   lookup_errno filepath_Dir fs path = ENOENT)
  /\ (~ no_file_on_the_way filepath_Dir fs path ->
      lookup_errno filepath_Dir fs path = ENOTDIR).
Proof.
  split; [apply no_file_on_the_way_errno|].
  unfold no_file_on_the_way, lookup_errno. intros Hn.
  destruct (way filepath_Dir (String.length path) fs path)
    as [[]|]; try done; by destruct Hn.
Qed.

(** ** The purge *)

(** os.Remove of a path that is not a directory, and that is there or has
    no regular file on its way, leaves the filesystem without the path, and
    its only error is "no such file or directory". *)
Lemma os_Remove_not_directory (fs : gmap string node) name :
  fs !! name <> Some Directory ->
  (fs !! name = None -> lookup_errno filepath_Dir fs name = ENOENT) ->
  exists err,
    os_Remove filepath_Dir fs name = (delete name fs, err)
    /\ err_other_than err
         ("remove " +:+ name +:+ ": no such file or directory") = false
    /\ (fs !! name = None -> err = Some (PathError "remove" name ENOENT)).
Proof.
  intros Hnd Hway. unfold os_Remove.
  destruct (fs !! name) as [[c|]|] eqn:E; [| done |].
  - exists None. done.
  - exists (Some (PathError "remove" name ENOENT)).
    rewrite (Hway eq_refl), (delete_id _ _ E). repeat split.
    unfold err_other_than. rewrite ENOENT_remove_message.
    by rewrite String.eqb_refl.
Qed.

(** deleteEmptyFolder of a path that is not a regular file, and that is
    there or has no regular file on its way, removes an empty directory and
    nothing else, and its only error is "no such file or directory". *)
Lemma deleteEmptyFolder_not_file (fs : gmap string node) dirPath :
  (forall c, fs !! dirPath <> Some (RegFile c)) ->
  (fs !! dirPath = None -> lookup_errno filepath_Dir fs dirPath = ENOENT) ->
  exists fs' err,
    deleteEmptyFolder filepath_Dir fs dirPath = (fs', err)
    /\ err_other_than err
         ("open " +:+ dirPath +:+ ": no such file or directory") = false
    /\ (fs' = fs /\ pruned filepath_Dir fs dirPath \/ fs' = delete dirPath fs).
Proof.
  intros Hnf Hway. unfold deleteEmptyFolder, isFolderEmpty, os_ReadDir.
  destruct (fs !! dirPath) as [[c|]|] eqn:E.
  - by destruct (Hnf c).
  - destruct (entries filepath_Dir fs dirPath) as [|e es] eqn:Ee; simpl.
    + unfold os_Remove. rewrite E, Ee. exists (delete dirPath fs), None.
      auto.
    + exists fs, None. repeat split. left. split; [done|].
      right. split; [done|]. by rewrite Ee.
  - exists fs, (Some (PathError "open" dirPath ENOENT)).
    rewrite (Hway eq_refl).
    repeat split; [|left; split; [done|by left]].
    unfold err_other_than. rewrite ENOENT_open_message.
    by rewrite String.eqb_refl.
Qed.

(** One purge, on a filesystem where the path is not a directory and its
    folder is not a regular file, and where the path and the folder are
    there or have no regular file on their way. *)
Lemma purge_once db (fs : gmap string node) now file_path file_id :
  fs !! file_path <> Some Directory ->
  (forall c, fs !! filepath_Dir file_path <> Some (RegFile c)) ->
  (fs !! file_path = None ->
   lookup_errno filepath_Dir fs file_path = ENOENT) ->
  (delete file_path fs !! filepath_Dir file_path = None ->
   lookup_errno filepath_Dir (delete file_path fs) (filepath_Dir file_path)
   = ENOENT) ->
  exists fs',
    deleteFileInBackground filepath_Dir db fs now file_path file_id
    = ((Delete db now file_id).1, fs', None)
    /\ fs' !! file_path = None
    /\ (forall p, fs' !! p = fs !! p \/ fs' !! p = None)
    /\ pruned filepath_Dir fs' (filepath_Dir file_path).
Proof.
  intros Hp Hd Hwp Hwd. unfold deleteFileInBackground.
  pose proof (Delete_tolerated db now file_id) as Ht.
  destruct (Delete db now file_id) as [db1 err0]. simpl in Ht |- *.
  rewrite Ht.
  destruct (os_Remove_not_directory fs file_path Hp Hwp)
    as (err1 & -> & -> & _).
  destruct (deleteEmptyFolder_not_file (delete file_path fs)
              (filepath_Dir file_path)) as (fs' & err2 & -> & -> & Hfs').
  { intros c Hc. apply lookup_delete_Some in Hc as [_ Hc]. by apply (Hd c). }
  { exact Hwd. }
  exists fs'. split; [done|].
  destruct Hfs' as [[-> Hpr] | ->]; repeat split.
  - apply lookup_delete_eq.
  - intros p. destruct (decide (file_path = p)) as [<-|Hne].
    + right. apply lookup_delete_eq.
    + left. by apply lookup_delete_ne.
  - exact Hpr.
  - apply lookup_delete_None. right. apply lookup_delete_eq.
  - intros p.
    destruct (decide (filepath_Dir file_path = p)) as [<-|Hne1];
      [right; apply lookup_delete_eq|].
    rewrite lookup_delete_ne by done.
    destruct (decide (file_path = p)) as [<-|Hne2].
    + right. apply lookup_delete_eq.
    + left. by apply lookup_delete_ne.
  - left. apply lookup_delete_eq.
Qed.

Lemma delete_sub (fs : gmap string node) name p :
  delete name fs !! p = fs !! p \/ delete name fs !! p = None.
Proof.
  destruct (decide (name = p)) as [<-|Hne].
  - right. apply lookup_delete_eq.
  - left. by apply lookup_delete_ne.
Qed.

(** One purge, on a filesystem where no regular file stands on the way to
    the path or to its folder. *)
Lemma purge_once_clear db (fs : gmap string node) now file_path file_id :
  fs !! file_path <> Some Directory ->
  (forall c, fs !! filepath_Dir file_path <> Some (RegFile c)) ->
  no_file_on_the_way filepath_Dir fs file_path ->
  no_file_on_the_way filepath_Dir fs (filepath_Dir file_path) ->
  exists fs',
    deleteFileInBackground filepath_Dir db fs now file_path file_id
    = ((Delete db now file_id).1, fs', None)
    /\ fs' !! file_path = None
    /\ (forall p, fs' !! p = fs !! p \/ fs' !! p = None)
    /\ pruned filepath_Dir fs' (filepath_Dir file_path).
Proof.
  intros Hp Hd Hwp Hwd. apply purge_once; [done|done| |].
  - intros _. by apply no_file_on_the_way_errno.
  - intros _. apply no_file_on_the_way_errno.
    apply (no_file_on_the_way_sub fs); [apply delete_sub|done].
Qed.

(** C1, as the code has it: on a filesystem where the path is not a
    directory, its folder is not a regular file and no regular file stands
    on the way to either, two purges in a row both return nil.  The second
    finds no blob, and no row to delete when the clock has not gone back.
    Afterwards the path holds no blob and its folder is gone unless it has
    other entries; every row of the table was there before, and a row with
    the id of the purge that is still there is an expired one: the delete
    is conditioned on expiry > now, so the purge leaves expired rows in
    place. *)
Theorem purge_twice_succeeds
    db (fs : gmap string node) now1 now2 file_path file_id :
  fs !! file_path <> Some Directory ->
  (forall c, fs !! filepath_Dir file_path <> Some (RegFile c)) ->
  no_file_on_the_way filepath_Dir fs file_path ->
  no_file_on_the_way filepath_Dir fs (filepath_Dir file_path) ->
  exists db1 fs1 db2 fs2,
    deleteFileInBackground filepath_Dir db fs now1 file_path file_id
    = (db1, fs1, None)
    /\ deleteFileInBackground filepath_Dir db1 fs1 now2 file_path file_id
       = (db2, fs2, None)
    /\ purge_twice filepath_Dir db fs now1 now2 file_path file_id
       = (db2, fs2, None, None)
    /\ (os_Remove filepath_Dir fs1 file_path).2
       = Some (PathError "remove" file_path ENOENT)
    /\ (now1 <= now2 -> (Delete db1 now2 file_id).2 = Some ErrRecordNotFound)
    /\ fs2 !! file_path = None
    /\ pruned filepath_Dir fs2 (filepath_Dir file_path)
    /\ (forall r, In r (rows db2) -> In r (rows db))
    /\ (1 <= file_id ->
        forall r, In r (rows db2) -> ID r = file_id -> Expiry r <= now2).
Proof.
  intros Hp Hd Hwp Hwd.
  destruct (purge_once_clear db fs now1 file_path file_id Hp Hd Hwp Hwd)
    as (fs1 & E1 & Hp1 & Hsub1 & _).
  assert (Hp1' : fs1 !! file_path <> Some Directory) by (by rewrite Hp1).
  assert (Hd1 : forall c, fs1 !! filepath_Dir file_path <> Some (RegFile c)).
  { intros c Hc. destruct (Hsub1 (filepath_Dir file_path)) as [H|H];
      rewrite H in Hc; [by apply (Hd c)|done]. }
  assert (Hwp1 := no_file_on_the_way_sub fs fs1 _ Hsub1 Hwp).
  assert (Hwd1 := no_file_on_the_way_sub fs fs1 _ Hsub1 Hwd).
  set (db1 := (Delete db now1 file_id).1) in *.
  destruct (purge_once_clear db1 fs1 now2 file_path file_id
              Hp1' Hd1 Hwp1 Hwd1)
    as (fs2 & E2 & Hp2 & Hsub2 & Hpr2).
  exists db1, fs1, (Delete db1 now2 file_id).1, fs2.
  split; [exact E1|]. split; [exact E2|].
  split; [unfold purge_twice; by rewrite E1, E2|].
  split.
  { destruct (os_Remove_not_directory fs1 file_path Hp1')
      as (err & -> & _ & Herr).
    - intros _. by apply no_file_on_the_way_errno.
    - simpl. by apply Herr. }
  split; [intros Hle; subst db1; by apply Delete_again|].
  split; [exact Hp2|].
  split; [exact Hpr2|].
  split.
  - intros r Hr. subst db1.
    exact (Delete_rows _ _ _ _ (Delete_rows _ _ _ _ Hr)).
  - intros Hid r Hr. exact (Delete_no_live_row _ _ _ _ Hid Hr).
Qed.

(** ** Explicit delete *)

(** C2, what the code does: when no live row has the id and the owner of
    the request (the file belongs to someone else, has expired or never
    existed), DeleteFromUser returns sql.ErrNoRows as it is, and the
    handler answers with the server error, goes on with the empty path and
    never answers not-found. *)
Theorem delete_without_match_is_server_error
    db (fs : gmap string node) id user now :
  1 <= id ->
  Forall (fun r => where_id_user_live id (User_ID user) now r = false)
         (rows db) ->
  let o := deleteUserFileHandler filepath_Dir db fs (Some id) user now in
  DeleteFromUser db now id user = (db, (EmptyString, Some sql_ErrNoRows))
  /\ (exists rest,
         out_responses o = serverErrorResponse sql_ErrNoRows :: rest)
  /\ ~ In notFoundResponse (out_responses o).
Proof.
  intros Hid Hno o.
  pose proof (DeleteFromUser_no_match db now id user Hid Hno) as HD.
  split; [exact HD|].
  subst o. unfold deleteUserFileHandler.
  assert ((id <? 1) = false) as -> by (apply Z.ltb_ge; lia).
  rewrite HD.
  destruct (os_Remove filepath_Dir fs EmptyString) as [fs1 [err|]]; simpl.
  - split; [by eexists|]. intros [|[|[]]]; discriminate.
  - destruct (deleteEmptyFolder filepath_Dir fs1 _) as [fs2 [err|]]; simpl.
    + split; [by eexists|]. intros [|[|[|[]]]]; discriminate.
    + split; [by eexists|]. intros [|[|[]]]; discriminate.
Qed.

(** ** The deletion job of an upload *)

(** C3, what the code does: an upload that is accepted hands exactly one
    job to the background runner; its timer is 30 seconds, while the
    expiry of the record is two minutes after the clock reading. *)
Theorem upload_timer_is_thirty_seconds
    db (fs : gmap string node) form user now_code now_expiry now_insert f :
  let o := uploadFileHandler filepath_Dir Rand rand_New Intn db fs form user
                             now_code now_expiry now_insert in
  In (writeJSON StatusAccepted "file" (data_file f)) (out_responses o) ->
  out_background o
  = [{| timer := 30 * Second; job_path := Path f; job_id := ID f |}]
  /\ Expiry f = now_expiry + 2 * Minute
  /\ 30 * Second < Expiry f - now_expiry.
Proof.
  intros o. subst o. unfold uploadFileHandler.
  destruct form as [handler|err]; [|simpl; by intros [|[]]].
  destruct (negb _); [simpl; by intros [|[]]|].
  unfold Insert.
  destruct (insert_files _ _ _) as [db' [[[id c] l]|err]].
  - destruct (createFile filepath_Dir _ _ _) as [fs' [err|]]; simpl.
    + by intros [|[]].
    + intros [[= <-]|[]]. simpl. split; [done|]. split; [done|].
      unfold Minute, Second. lia.
  - destruct (String.eqb _ _); simpl.
    + by intros [|[]].
    + destruct (String.eqb _ _); simpl; by intros [|[]].
Qed.

(** ** What createFile leaves on disk *)

Lemma MkdirAll_from_ok fuel : forall (fs fs' : gmap string node) path,
  MkdirAll_from filepath_Dir fuel fs path = (fs', None) ->
  fs' !! path = Some Directory
  /\ (forall q n, fs !! q = Some n -> fs' !! q = Some n)
  /\ (forall q n, fs' !! q = Some n ->
                  fs !! q = Some n \/ fs !! q = None /\ n = Directory).
Proof.
  induction fuel as [|fuel IH]; intros fs fs' path; simpl;
    destruct (fs !! path) as [[c|]|] eqn:E; try discriminate;
    try (intros [= <-]; by auto).
  - intros [= <-]. split; [apply lookup_insert_eq|]. split.
    + intros q n Hq. rewrite lookup_insert_ne; [done|congruence].
    + intros q n. rewrite lookup_insert. case_decide; [|by left].
      intros [= <-]. subst. by right.
  - assert (Hins : forall fs1 : gmap string node,
               (forall q n, fs !! q = Some n -> fs1 !! q = Some n) ->
               (forall q n, fs1 !! q = Some n ->
                            fs !! q = Some n
                            \/ fs !! q = None /\ n = Directory) ->
               <[path:=Directory]> fs1 !! path = Some Directory
               /\ (forall q n, fs !! q = Some n ->
                               <[path:=Directory]> fs1 !! q = Some n)
               /\ (forall q n, <[path:=Directory]> fs1 !! q = Some n ->
                               fs !! q = Some n
                               \/ fs !! q = None /\ n = Directory)).
    { intros fs1 H1 H2. split; [apply lookup_insert_eq|]. split.
      - intros q n Hq. rewrite lookup_insert_ne; [by apply H1|congruence].
      - intros q n. rewrite lookup_insert. case_decide; [|by apply H2].
        intros [= <-]. subst. by right. }
    destruct (String.eqb (filepath_Dir path) path).
    + intros [= <-]. apply Hins; auto.
    + destruct (MkdirAll_from filepath_Dir fuel fs (filepath_Dir path))
        as [fs1 [err|]] eqn:E1; [discriminate|].
      intros [= <-]. apply IH in E1 as (_ & H1 & H2). apply Hins; auto.
Qed.

Lemma createFile_ok (fs fs' : gmap string node) file file_path :
  createFile filepath_Dir fs file file_path = (fs', None) ->
  fs' !! file_path = Some (RegFile file)
  /\ fs' !! filepath_Dir file_path = Some Directory
  /\ (forall q n, q <> file_path -> fs !! q = Some n -> fs' !! q = Some n)
  /\ (forall q n, fs' !! q = Some n ->
                  q = file_path \/ fs !! q = Some n
                  \/ fs !! q = None /\ n = Directory).
Proof.
  unfold createFile, os_MkdirAll.
  destruct (MkdirAll_from filepath_Dir _ fs (filepath_Dir file_path))
    as [fs1 [err|]] eqn:E1; [discriminate|].
  apply MkdirAll_from_ok in E1 as (Hdir & H1 & H2).
  unfold os_Create.
  rewrite Hdir.
  destruct (fs1 !! file_path) as [[c|]|] eqn:E2; try discriminate.
  - intros [= <-]. rewrite insert_insert_eq.
    assert (filepath_Dir file_path <> file_path) by (intros Heq; congruence).
    split; [apply lookup_insert_eq|]. split; [by rewrite lookup_insert_ne|].
    split.
    + intros q n Hq Hfs. rewrite lookup_insert_ne; [by apply H1|done].
    + intros q n. rewrite lookup_insert. case_decide; [by left|].
      intros Hq. right. by apply H2.
  - intros [= <-]. rewrite insert_insert_eq.
    assert (filepath_Dir file_path <> file_path) by (intros Heq; congruence).
    split; [apply lookup_insert_eq|]. split; [by rewrite lookup_insert_ne|].
    split.
    + intros q n Hq Hfs. rewrite lookup_insert_ne; [by apply H1|done].
    + intros q n. rewrite lookup_insert. case_decide; [by left|].
      intros Hq. right. by apply H2.
Qed.

(** X10: when createFile returns nil, the path holds a regular file with
    the bytes it was given (an older file at the path is overwritten), its
    folder is a directory, every other entry of the filesystem is as
    before, and what is new besides the file are directories. *)
Theorem createFile_writes_the_blob (fs fs' : gmap string node) file file_path :
  createFile filepath_Dir fs file file_path = (fs', None) ->
  fs' !! file_path = Some (RegFile file)
  /\ fs' !! filepath_Dir file_path = Some Directory
  /\ (forall q n, q <> file_path -> fs !! q = Some n -> fs' !! q = Some n)
  /\ (forall q n, fs' !! q = Some n ->
                  q = file_path \/ fs !! q = Some n
                  \/ fs !! q = None /\ n = Directory).
Proof. apply createFile_ok. Qed.

(** ** What the removals touch *)

Lemma os_Remove_cases (fs : gmap string node) name :
  os_Remove filepath_Dir fs name = (delete name fs, None)
  \/ exists err, os_Remove filepath_Dir fs name = (fs, Some err).
Proof.
  unfold os_Remove. destruct (fs !! name) as [[c|]|]; [by left| |by eauto].
  destruct (entries filepath_Dir fs name); [by left|by eauto].
Qed.

Lemma deleteEmptyFolder_cases (fs : gmap string node) dirPath :
  (fs !! dirPath = Some Directory /\ entries filepath_Dir fs dirPath = []
   /\ deleteEmptyFolder filepath_Dir fs dirPath = (delete dirPath fs, None))
  \/ (fs !! dirPath = Some Directory
      /\ entries filepath_Dir fs dirPath <> []
      /\ deleteEmptyFolder filepath_Dir fs dirPath = (fs, None))
  \/ (fs !! dirPath = None
      /\ deleteEmptyFolder filepath_Dir fs dirPath
         = (fs, Some (PathError "open" dirPath
                                (lookup_errno filepath_Dir fs dirPath))))
  \/ (exists c, fs !! dirPath = Some (RegFile c)
                /\ deleteEmptyFolder filepath_Dir fs dirPath
                   = (fs, Some (PathError ReadDir_op dirPath ENOTDIR))).
Proof.
  unfold deleteEmptyFolder, isFolderEmpty, os_ReadDir, os_Remove.
  destruct (fs !! dirPath) as [[c|]|] eqn:E.
  - right. right. right. by exists c.
  - destruct (entries filepath_Dir fs dirPath) as [|e es] eqn:Ee; simpl.
    + left. done.
    + right. left. done.
  - right. right. left. done.
Qed.

(** X11: deleteEmptyFolder removes a directory that has no entries and
    nothing else.  A directory with entries is kept and the result is nil.
    A missing path gives the error of the failed open, which is "no such
    file or directory" when no regular file stands on the way to the path
    and "not a directory" when one does; a regular file gives the error
    of the failed read, "not a directory" under the operation the
    toolchain names.  In both cases the filesystem is left as it is. *)
Theorem deleteEmptyFolder_removes_only_empty_directory
    (fs : gmap string node) dirPath :
  (fs !! dirPath = Some Directory -> entries filepath_Dir fs dirPath = [] ->
   deleteEmptyFolder filepath_Dir fs dirPath = (delete dirPath fs, None))
  /\ (fs !! dirPath = Some Directory ->
      entries filepath_Dir fs dirPath <> [] ->
      deleteEmptyFolder filepath_Dir fs dirPath = (fs, None))
  /\ (fs !! dirPath = None ->
      deleteEmptyFolder filepath_Dir fs dirPath
      = (fs, Some (PathError "open" dirPath
                             (lookup_errno filepath_Dir fs dirPath)))
      /\ (no_file_on_the_way filepath_Dir fs dirPath ->
          lookup_errno filepath_Dir fs dirPath = ENOENT)
      /\ (~ no_file_on_the_way filepath_Dir fs dirPath ->
          lookup_errno filepath_Dir fs dirPath = ENOTDIR))
  /\ (forall c, fs !! dirPath = Some (RegFile c) ->
                deleteEmptyFolder filepath_Dir fs dirPath
                = (fs, Some (PathError ReadDir_op dirPath ENOTDIR)))
  /\ (forall p, p <> dirPath ->
                (deleteEmptyFolder filepath_Dir fs dirPath).1 !! p = fs !! p).
Proof.
  pose proof (lookup_errno_cases fs dirPath) as Hway.
  destruct (deleteEmptyFolder_cases fs dirPath)
    as [(E & Ee & ->)|[(E & Ee & ->)|[(E & ->)|(c & E & ->)]]];
    (split; [|split; [|split; [|split]]]); try congruence; simpl;
    try done.
  intros p Hp. by rewrite lookup_delete_ne.
Qed.

Lemma purge_local_fs db (fs : gmap string node) now file_path file_id p :
  p <> file_path -> p <> filepath_Dir file_path ->
  (deleteFileInBackground filepath_Dir db fs now file_path file_id).1.2 !! p
  = fs !! p.
Proof.
  intros Hp Hd. unfold deleteFileInBackground.
  destruct (Delete db now file_id) as [db1 err0].
  destruct (err_other_than err0 _); [done|].
  assert (H1 : (os_Remove filepath_Dir fs file_path).1 !! p = fs !! p).
  { destruct (os_Remove_cases fs file_path) as [->|[e ->]]; simpl; [|done].
    by rewrite lookup_delete_ne. }
  destruct (os_Remove filepath_Dir fs file_path) as [fs1 err1].
  simpl in H1. destruct (err_other_than err1 _); [done|].
  assert (H2 : (deleteEmptyFolder filepath_Dir fs1
                  (filepath_Dir file_path)).1 !! p = fs1 !! p).
  { destruct (deleteEmptyFolder_cases fs1 (filepath_Dir file_path))
      as [(_ & _ & ->)|[(_ & _ & ->)|[(_ & ->)|(c & _ & ->)]]];
      simpl; try done.
    by rewrite lookup_delete_ne. }
  destruct (deleteEmptyFolder filepath_Dir fs1 _) as [fs2 err2].
  simpl in H2. destruct (err_other_than err2 _); simpl; congruence.
Qed.

Lemma purge_db db (fs : gmap string node) now file_path file_id :
  (deleteFileInBackground filepath_Dir db fs now file_path file_id).1.1
  = (Delete db now file_id).1.
Proof.
  unfold deleteFileInBackground.
  destruct (Delete db now file_id) as [db1 err0].
  destruct (err_other_than err0 _); [done|].
  destruct (os_Remove filepath_Dir fs file_path) as [fs1 err1].
  destruct (err_other_than err1 _); [done|].
  destruct (deleteEmptyFolder filepath_Dir fs1 _) as [fs2 err2].
  by destruct (err_other_than err2 _).
Qed.

(** X12: whatever it returns, a purge changes nothing but the path it is
    given and the folder of that path, and removes no row but the live rows
    with the id it is given: rows with another id and expired rows stay,
    and no row is added. *)
Theorem purge_is_local db (fs : gmap string node) now file_path file_id :
  let result :=
    deleteFileInBackground filepath_Dir db fs now file_path file_id in
  (forall p, p <> file_path -> p <> filepath_Dir file_path ->
             result.1.2 !! p = fs !! p)
  /\ (forall r, In r (rows result.1.1)
                <-> In r (rows db)
                    /\ ~ (1 <= file_id /\ ID r = file_id
                          /\ now < Expiry r)).
Proof.
  intros result. split.
  - intros p. apply purge_local_fs.
  - intros r. subst result. rewrite purge_db. apply Delete_In.
Qed.

(** ** Uploads *)

Lemma uploadFileHandler_accepted
    db (fs : gmap string node) handler user now_code now_expiry now_insert f :
  In (writeJSON StatusAccepted "file" (data_file f))
     (out_responses
        (uploadFileHandler filepath_Dir Rand rand_New Intn db fs
                           (inl handler) user
                           now_code now_expiry now_insert)) ->
  exists db' fs',
    Insert db now_insert
           (upload_new_file Rand rand_New Intn handler user
                            now_code now_expiry)
    = (db', f, None)
    /\ createFile filepath_Dir fs (Content handler) (Path f) = (fs', None)
    /\ uploadFileHandler filepath_Dir Rand rand_New Intn db fs
                         (inl handler) user now_code now_expiry now_insert
       = {| out_db := db'; out_fs := fs';
            out_responses :=
              [writeJSON StatusAccepted "file" (data_file f)];
            out_background :=
              [{| timer := 30 * Second; job_path := Path f;
                  job_id := ID f |}] |}.
Proof.
  unfold uploadFileHandler.
  destruct (negb _); [simpl; by intros [|[]]|].
  destruct (Insert db now_insert _) as [[db' f'] [err|]] eqn:EI.
  - destruct (String.eqb _ _); simpl; by intros [|[]].
  - destruct (createFile filepath_Dir fs _ _) as [fs' [err|]] eqn:EC; simpl.
    + by intros [|[]].
    + intros [[= <-]|[]]. by exists db', fs'.
Qed.

Lemma filter_all {A} (P : A -> bool) (l : list A) :
  (forall x, In x l -> P x = true) -> List.filter P l = l.
Proof.
  induction l as [|x l IH]; simpl; [done|]. intros H.
  rewrite (H x (or_introl eq_refl)). f_equal. apply IH. auto.
Qed.

Lemma GetFromCode_after_Insert db now file db' file' now' :
  Insert db now file = (db', file', None) ->
  now' < timestamp0 (Expiry file') ->
  GetFromCode db' now' (Code file') = inl (Scan8 (stored file')).
Proof.
  intros Hins Hlive. apply Insert_ok in Hins as (Hrows & _ & Hf & _ & Hc).
  assert (Hcode : Code file' = Code file) by (by rewrite Hf).
  unfold GetFromCode. rewrite Hrows, List.filter_app.
  rewrite (filter_none _ (rows db)).
  - simpl. unfold where_code_live at 1. cbn [stored Code Expiry].
    rewrite String.eqb_refl. simpl.
    by assert ((now' <? timestamp0 (Expiry file')) = true) as ->
        by (by apply Z.ltb_lt).
  - intros x Hx. unfold where_code_live. apply andb_false_iff. left.
    apply String.eqb_neq. rewrite Hcode. by apply Hc.
Qed.

Lemma GetFromCode_after_expiry db now file db' file' now' :
  Insert db now file = (db', file', None) ->
  timestamp0 (Expiry file') <= now' ->
  GetFromCode db' now' (Code file') = inr ErrRecordNotFound.
Proof.
  intros Hins Hlive. apply Insert_ok in Hins as (Hrows & _ & Hf & _ & Hc).
  assert (Hcode : Code file' = Code file) by (by rewrite Hf).
  unfold GetFromCode. rewrite filter_none; [done|].
  intros r Hr. rewrite Hrows in Hr. unfold where_code_live.
  apply in_app_or in Hr as [Hr|[<-|[]]].
  - apply andb_false_iff. left. apply String.eqb_neq. rewrite Hcode.
    by apply Hc.
  - apply andb_false_iff. right. apply Z.ltb_ge. simpl. lia.
Qed.

(** X13: upload, then download.  After an upload that was accepted,
    retrieval by the code of the record answers with the download of the
    bytes that were uploaded, under the name of the upload, its length
    being the length of those bytes, at any time before the expiry that
    the row holds, which is the expiry of the record as the column converts
    it; from that expiry on it answers not-found. *)
Theorem upload_then_download
    db (fs : gmap string node) handler user now_code now_expiry now_insert
    f now :
  let o := uploadFileHandler filepath_Dir Rand rand_New Intn db fs
             (inl handler) user now_code now_expiry now_insert in
  In (writeJSON StatusAccepted "file" (data_file f)) (out_responses o) ->
  (now < timestamp0 (Expiry f) ->
   getFileFromCodeHandler filepath_Dir (out_db o) (out_fs o) (Code f) now
   = [attachment (Filename handler) (len (Content handler));
      ioCopy (Content handler)])
  /\ (timestamp0 (Expiry f) <= now ->
      getFileFromCodeHandler filepath_Dir (out_db o) (out_fs o) (Code f) now
      = [notFoundResponse]).
Proof.
  intros o Hacc. subst o.
  apply uploadFileHandler_accepted in Hacc as (db' & fs' & HI & HC & ->).
  simpl. unfold getFileFromCodeHandler. split; intros Hlive.
  - rewrite (GetFromCode_after_Insert _ _ _ _ _ _ HI Hlive).
    apply createFile_ok in HC as (Hblob & _). unfold os_Open. simpl.
    rewrite Hblob. apply Insert_ok in HI as (_ & _ & -> & _). done.
  - by rewrite (GetFromCode_after_expiry _ _ _ _ _ _ HI Hlive).
Qed.

(** X14: the deletion job of an upload.  On a table that meets its
    constraints, the job that an accepted upload hands to the background
    runner returns nil and leaves no blob at the path of the record.  Run
    before the expiry that the row holds, which is the expiry of the record
    as the column converts it, it leaves the rows of the table as they were
    before the upload; run from that expiry on, it leaves the row of the
    upload in the table. *)
Theorem upload_job_removes_the_upload
    db (fs : gmap string node) handler user now_code now_expiry now_insert
    f j now :
  let o := uploadFileHandler filepath_Dir Rand rand_New Intn db fs
             (inl handler) user now_code now_expiry now_insert in
  wf_db db ->
  In (writeJSON StatusAccepted "file" (data_file f)) (out_responses o) ->
  In j (out_background o) ->
  exists db2 fs2,
    deleteFileInBackground filepath_Dir (out_db o) (out_fs o) now
                           (job_path j) (job_id j)
    = (db2, fs2, None)
    /\ fs2 !! Path f = None
    /\ (now < timestamp0 (Expiry f) -> rows db2 = rows db)
    /\ (timestamp0 (Expiry f) <= now -> rows db2 = rows db ++ [stored f]).
Proof.
  intros o Hwf Hacc Hj. subst o.
  apply uploadFileHandler_accepted in Hacc as (db' & fs' & HI & HC & Ho).
  rewrite Ho in Hj |- *. simpl in Hj |- *. destruct Hj as [<-|[]]. simpl.
  apply createFile_ok in HC as (Hblob & Hdir & _).
  destruct (purge_once db' fs' now (Path f) (ID f)) as (fs2 & -> & Hgone & _).
  { by rewrite Hblob. }
  { intros c. by rewrite Hdir. }
  { by rewrite Hblob. }
  { assert (Hne : Path f <> filepath_Dir (Path f)) by congruence.
    by rewrite lookup_delete_ne, Hdir. }
  eexists _, fs2. split; [reflexivity|]. split; [done|].
  destruct Hwf as (_ & _ & _ & Hb & Hs).
  pose proof (proj1 (List.Forall_forall _ _) Hb) as Hb'.
  apply Insert_ok in HI as (Hrows & _ & Hf & _).
  assert (Hid : ID f = files_id_seq db) by (by rewrite Hf).
  assert (Hold : List.filter (fun r => negb (where_id_live (ID f) now r))
                             (rows db) = rows db).
  { apply filter_all. intros x Hx.
    unfold where_id_live. apply negb_true_iff, andb_false_iff. left.
    apply Z.eqb_neq. specialize (Hb' x Hx). simpl in Hb'. lia. }
  unfold Delete. assert ((ID f <? 1) = false) as -> by (apply Z.ltb_ge; lia).
  assert (Hrows2 : rows (delete_files db' (where_id_live (ID f) now)).1
                   = rows db
                     ++ (if now <? timestamp0 (Expiry f) then []
                         else [stored f])).
  { simpl. rewrite Hrows, List.filter_app, Hold. simpl.
    unfold where_id_live at 1. cbn [stored ID Expiry].
    rewrite Z.eqb_refl. simpl. by destruct (now <? _). }
  destruct (delete_files db' _) as [db2 deleted]. simpl in Hrows2 |- *.
  assert (Hfst : forall e1 e2 : option error,
             rows (if Z.of_nat (length deleted) =? 0
                   then (db2, e1) else (db2, e2)).1 = rows db2)
    by (intros; by destruct (_ =? 0)).
  rewrite Hfst, Hrows2. split; intros Hl.
  - assert ((now <? timestamp0 (Expiry f)) = true) as ->
        by (by apply Z.ltb_lt). apply app_nil_r.
  - by assert ((now <? timestamp0 (Expiry f)) = false) as ->
        by (by apply Z.ltb_ge).
Qed.

(** X15: an upload that fails validation reaches neither store.  When the
    name has more than 50 bytes or the size is above 1,000,000, the answer
    is the validation error, and the table, its sequence and the filesystem
    are as before and nothing is scheduled. *)
Theorem invalid_upload_reaches_no_store
    db (fs : gmap string node) handler user now_code now_expiry now_insert :
  let o := uploadFileHandler filepath_Dir Rand rand_New Intn db fs
             (inl handler) user now_code now_expiry now_insert in
  50 < len (Filename handler) \/ 1000000 < FormSize handler ->
  out_db o = db /\ out_fs o = fs /\ out_background o = []
  /\ exists errors,
       errors <> ∅ /\ out_responses o = [failedValidationResponse errors].
Proof.
  intros o Hbad. subst o. unfold uploadFileHandler.
  assert (Hv : Valid (ValidateFile New
                        (upload_new_file Rand rand_New Intn handler user
                                         now_code now_expiry)) = false).
  { rewrite Valid_ValidateFile, Valid_New. cbn [andb].
    cbn [upload_new_file Name Size Code].
    destruct Hbad as [H|H].
    - assert ((len (Filename handler) <=? 50) = false) as ->
          by (apply Z.leb_gt; lia). done.
    - assert ((FormSize handler <=? 1000000) = false) as ->
          by (apply Z.leb_gt; lia). by rewrite andb_false_r. }
  rewrite Hv. simpl. repeat split. eexists. split; [|reflexivity].
  intros He. unfold Valid in Hv. apply bool_decide_eq_false in Hv. done.
Qed.

(** X16: a blob that cannot be written leaves the record behind.  When the
    insert of an upload succeeds and createFile reports an error, the
    answer is that server error and nothing is scheduled, while the row of
    the record stays in the table, its expiry being the expiry of the upload
    as the column converts it; retrieval by its code finds the row before
    that expiry and answers record-not-found from it on. *)
Theorem failed_blob_write_keeps_the_record
    db (fs : gmap string node) handler user now_code now_expiry now_insert
    db' f fs' err :
  let new_file :=
    upload_new_file Rand rand_New Intn handler user now_code now_expiry in
  len (Filename handler) <= 50 ->
  FormSize handler <= 1000000 ->
  Insert db now_insert new_file = (db', f, None) ->
  createFile filepath_Dir fs (Content handler) (Path f) = (fs', Some err) ->
  uploadFileHandler filepath_Dir Rand rand_New Intn db fs (inl handler) user
                    now_code now_expiry now_insert
  = {| out_db := db'; out_fs := fs';
       out_responses := [serverErrorResponse err];
       out_background := [] |}
  /\ In (stored f) (rows db')
  /\ Expiry (stored f) = timestamp0 (now_expiry + 2 * Minute)
  /\ (forall now, now < timestamp0 (Expiry f) ->
                  GetFromCode db' now (Code f) = inl (Scan8 (stored f)))
  /\ (forall now, timestamp0 (Expiry f) <= now ->
                  GetFromCode db' now (Code f) = inr ErrRecordNotFound).
Proof.
  intros new_file Hn Hs HI HC.
  pose proof (upload_new_file_valid handler user now_code now_expiry Hn Hs)
    as Hv.
  split; [|split; [|split; [|split]]].
  - unfold uploadFileHandler. fold new_file in Hv |- *.
    by rewrite Hv, HI, HC.
  - apply Insert_ok in HI as (-> & _). apply in_or_app. right. by left.
  - apply Insert_ok in HI as (_ & _ & -> & _). done.
  - intros now Hl. by apply (GetFromCode_after_Insert _ _ _ _ _ _ HI).
  - intros now Hl. by apply (GetFromCode_after_expiry _ _ _ _ _ _ HI).
Qed.

(** ** Uploads whose codes are generated at the same instant *)

(** C8, what the code does: the generator of a call is seeded with the
    clock reading of that call and with nothing else, so the code is the
    same for every call that reads the same instant.  When an upload has
    been accepted and a second valid upload, under a path the table does
    not hold, generates its code at the instant at which the first did, the
    second record carries the code of the first, its insert fails on the
    unique index of the code column, and the handler answers with that
    server error: nothing is stored, written or scheduled. *)
Theorem same_instant_uploads_collide
    db (fs : gmap string node) handler1 user1 handler2 user2 now_code
    now_expiry1 now_insert1 now_expiry2 now_insert2 f1 :
  let o1 := uploadFileHandler filepath_Dir Rand rand_New Intn db fs
              (inl handler1) user1 now_code now_expiry1 now_insert1 in
  let o2 := uploadFileHandler filepath_Dir Rand rand_New Intn
              (out_db o1) (out_fs o1)
              (inl handler2) user2 now_code now_expiry2 now_insert2 in
  In (writeJSON StatusAccepted "file" (data_file f1)) (out_responses o1) ->
  len (Filename handler2) <= 50 ->
  FormSize handler2 <= 1000000 ->
  (forall r, In r (rows (out_db o1)) ->
             Path r <> cache_path user2 (Filename handler2)) ->
  Code f1 = generateUniqueString Rand rand_New Intn now_code
  /\ Code (upload_new_file Rand rand_New Intn handler2 user2
                           now_code now_expiry2) = Code f1
  /\ In (stored f1) (rows (out_db o1))
  /\ out_responses o2
     = [serverErrorResponse (unique_violation "files_code_key")]
  /\ rows (out_db o2) = rows (out_db o1)
  /\ out_fs o2 = out_fs o1
  /\ out_background o2 = [].
Proof.
  intros o1 o2 Hacc Hn Hs Hpath.
  assert (Hv := upload_new_file_valid handler2 user2 now_code now_expiry2
                                      Hn Hs).
  subst o2. revert Hpath.
  apply uploadFileHandler_accepted in Hacc as (db' & fs' & HI & _ & Ho).
  subst o1. rewrite Ho. cbn [out_db out_fs]. intros Hpath.
  apply Insert_ok in HI as (Hrows & _ & Hf & _).
  assert (Hcode : Code f1 = generateUniqueString Rand rand_New Intn now_code)
    by (by rewrite Hf).
  assert (Hin : In (stored f1) (rows db')).
  { rewrite Hrows. apply in_or_app. right. by left. }
  split; [exact Hcode|]. split; [by rewrite Hcode|]. split; [exact Hin|].
  unfold uploadFileHandler.
  set (new_file := upload_new_file Rand rand_New Intn handler2 user2
                                   now_code now_expiry2) in *.
  rewrite Hv. cbn [negb].
  assert (HI2 : Insert db' now_insert2 new_file
                = ({| rows := rows db';
                      files_id_seq := files_id_seq db' + 1 |},
                   new_file, Some (unique_violation "files_code_key"))).
  { unfold Insert, insert_files.
    assert (Ep : existsb (fun r => String.eqb (Path r) (Path new_file))
                         (rows db') = false).
    { apply not_true_is_false. intros E.
      apply existsb_exists in E as (x & Hx & Heq).
      apply String.eqb_eq in Heq. by apply (Hpath x Hx). }
    assert (Ec : existsb (fun r => String.eqb (Code r) (Code new_file))
                         (rows db') = true).
    { apply existsb_exists. exists (stored f1). split; [exact Hin|].
      apply String.eqb_eq. exact Hcode. }
    rewrite Ep, Ec. reflexivity. }
  rewrite HI2. done.
Qed.

(** ** Explicit delete by the owner *)

(** X17: the owner deletes a file.  On a table with distinct ids, for a
    live row of the caller whose path holds a regular file inside a
    directory, the handler answers 200, removes that row and no other,
    removes the blob, and removes the folder when nothing else is in it. *)
Theorem owner_delete_removes_record_and_blob
    db (fs : gmap string node) u r now content :
  let o := deleteUserFileHandler filepath_Dir db fs (Some (ID r)) u now in
  NoDup (map ID (rows db)) ->
  In r (rows db) ->
  1 <= ID r ->
  UserID r = User_ID u ->
  now < Expiry r ->
  fs !! Path r = Some (RegFile content) ->
  fs !! filepath_Dir (Path r) = Some Directory ->
  out_responses o
  = [writeJSON StatusOK "message" (data_message "file successfully deleted")]
  /\ (forall r', In r' (rows (out_db o)) <-> In r' (rows db) /\ r' <> r)
  /\ out_fs o !! Path r = None
  /\ pruned filepath_Dir (out_fs o) (filepath_Dir (Path r))
  /\ (forall p, p <> Path r -> p <> filepath_Dir (Path r) ->
                out_fs o !! p = fs !! p).
Proof.
  intros o Hi Hin Hid Hu Hlive Hblob Hdir. subst o.
  unfold deleteUserFileHandler.
  assert ((ID r <? 1) = false) as -> by (apply Z.ltb_ge; lia).
  destruct (DeleteFromUser_own_row db now u r Hi Hin Hid Hu Hlive)
    as (db' & -> & _ & Hrows).
  assert (Hne : filepath_Dir (Path r) <> Path r) by congruence.
  unfold os_Remove. rewrite Hblob.
  assert (Hdir' : delete (Path r) fs !! filepath_Dir (Path r)
                  = Some Directory) by (by rewrite lookup_delete_ne).
  destruct (deleteEmptyFolder_cases (delete (Path r) fs)
              (filepath_Dir (Path r)))
    as [(_ & _ & ->)|[(_ & Hent & ->)|[(E & _)|(c & E & _)]]];
    [| |congruence|congruence]; simpl.
  - split; [done|]. split; [done|]. split.
    { rewrite lookup_delete_ne by done. apply lookup_delete_eq. }
    split; [left; apply lookup_delete_eq|].
    intros p Hp1 Hp2. by rewrite !lookup_delete_ne.
  - split; [done|]. split; [done|]. split; [apply lookup_delete_eq|].
    split; [by right|].
    intros p Hp1 Hp2. by rewrite lookup_delete_ne.
Qed.


(** ** Replacement *)

Lemma updateUserFileHandler_accepted
    db (fs : gmap string node) id handler u
    now_code now_expiry now_updated now_live f :
  In (writeJSON StatusAccepted "file" (data_file f))
     (out_responses
        (updateUserFileHandler filepath_Dir Rand rand_New Intn db fs
           (Some id) (inl handler) u
           now_code now_expiry now_updated now_live)) ->
  1 <= id
  /\ exists db' fs',
      UpdateFromUser db now_expiry now_updated now_live
                     (cache_path u (Filename handler)) id u
                     (generateUniqueString Rand rand_New Intn now_code)
      = (db', inl f)
      /\ createFile filepath_Dir fs (Content handler)
                    (cache_path u (Filename handler)) = (fs', None)
      /\ updateUserFileHandler filepath_Dir Rand rand_New Intn db fs
           (Some id) (inl handler) u
           now_code now_expiry now_updated now_live
         = {| out_db := db'; out_fs := fs';
              out_responses :=
                [writeJSON StatusAccepted "file" (data_file f)];
              out_background :=
                [{| timer := 2 * Minute;
                    job_path := cache_path u (Filename handler);
                    job_id := id |}] |}.
Proof.
  unfold updateUserFileHandler.
  destruct (Z.ltb_spec id 1) as [Hlt|Hge]; [simpl; by intros [|[]]|].
  destruct (UpdateFromUser _ _ _ _ _ _ _ _) as [db' [g|err]] eqn:EU.
  - destruct (os_Stat _ _ _); [|simpl; by intros [|[]]].
    destruct (createFile filepath_Dir fs _ _) as [fs' [err|]] eqn:EC; simpl.
    + by intros [|[]].
    + intros [[= <-]|[]]. split; [done|]. by exists db', fs'.
  - destruct (errors_Is _ _); simpl; by intros [|[]].
Qed.


(** X20: an older deletion job after a replacement.  On a table with
    distinct ids, after a replacement that was accepted, a purge for the
    same path and id that runs before the new expiry, as the job of the
    upload or of an earlier replacement does, returns nil and removes the
    replaced record and its blob: no row with the id is left. *)
Theorem older_job_purges_the_replaced_file
    db (fs : gmap string node) id handler u
    now_code now_expiry now_updated now_live f now :
  let path := cache_path u (Filename handler) in
  let o := updateUserFileHandler filepath_Dir Rand rand_New Intn db fs
             (Some id) (inl handler) u
             now_code now_expiry now_updated now_live in
  NoDup (map ID (rows db)) ->
  In (writeJSON StatusAccepted "file" (data_file f)) (out_responses o) ->
  now < Expiry f ->
  exists db2 fs2,
    deleteFileInBackground filepath_Dir (out_db o) (out_fs o) now path id
    = (db2, fs2, None)
    /\ (forall r, In r (rows db2) -> ID r <> id)
    /\ fs2 !! path = None.
Proof.
  intros path o Hi Hacc Hlive. subst o.
  apply updateUserFileHandler_accepted in Hacc
    as (Hid & db' & fs' & HU & HC & ->). simpl. fold path in HU, HC |- *.
  apply createFile_ok in HC as (Hblob & Hdir & _).
  destruct (purge_once db' fs' now path id) as (fs2 & -> & Hgone & _).
  { by rewrite Hblob. }
  { intros c. by rewrite Hdir. }
  { by rewrite Hblob. }
  { assert (Hne : path <> filepath_Dir path) by congruence.
    by rewrite lookup_delete_ne, Hdir. }
  eexists _, fs2. split; [reflexivity|]. split; [|done].
  apply UpdateFromUser_inl in HU as (Hrows & _ & r0 & Hin0 & Hhit & Hf).
  intros r Hr Heq.
  apply Delete_In in Hr as [Hr Hkeep].
  assert (Hids : map ID (rows db') = map ID (rows db)).
  { rewrite Hrows, map_map. apply map_ext. intros x.
    by destruct (where_path_id_user_live _ _ _ _ x). }
  assert (Hfin : In f (rows db')).
  { rewrite Hrows. apply in_map_iff. exists r0. by rewrite Hhit. }
  assert (Hfid : ID f = id).
  { rewrite Hf. simpl. unfold where_path_id_user_live in Hhit.
    rewrite !andb_true_iff, !Z.eqb_eq in Hhit. tauto. }
  assert (r = f).
  { apply (NoDup_map_inj ID (rows db')); [by rewrite Hids|done|done|].
    congruence. }
  subst r. apply Hkeep. done.
Qed.

(** X21: replace, then download.  On a table that meets its constraints,
    after a replacement that was accepted, retrieval by the new code, at
    any time before the new expiry, answers with the download of the new
    bytes, and retrieval by the code the record had before, when it
    differs from the new one, answers not-found. *)
Theorem replacement_then_download
    db (fs : gmap string node) id handler u
    now_code now_expiry now_updated now_live f now :
  let o := updateUserFileHandler filepath_Dir Rand rand_New Intn db fs
             (Some id) (inl handler) u
             now_code now_expiry now_updated now_live in
  wf_db db ->
  In (writeJSON StatusAccepted "file" (data_file f)) (out_responses o) ->
  now < Expiry f ->
  getFileFromCodeHandler filepath_Dir (out_db o) (out_fs o) (Code f) now
  = [attachment (Name f) (len (Content handler)); ioCopy (Content handler)]
  /\ (forall r, In r (rows db) -> ID r = id -> Code r <> Code f ->
                getFileFromCodeHandler filepath_Dir (out_db o) (out_fs o)
                                       (Code r) now
                = [notFoundResponse]).
Proof.
  intros o Hwf Hacc Hlive. subst o.
  apply updateUserFileHandler_accepted in Hacc
    as (Hid & db' & fs' & HU & HC & ->). simpl.
  pose proof (UpdateFromUser_wf db now_expiry now_updated now_live
                (cache_path u (Filename handler)) id u
                (generateUniqueString Rand rand_New Intn now_code) Hwf)
    as Hwf'.
  rewrite HU in Hwf'. simpl in Hwf'. destruct Hwf' as (Hi' & _ & Hc' & _).
  destruct Hwf as (Hi & _ & Hc & _).
  apply createFile_ok in HC as (Hblob & _).
  apply UpdateFromUser_inl in HU as (Hrows & _ & r0 & Hin0 & Hhit & Hf).
  assert (Hfin : In f (rows db')).
  { rewrite Hrows. apply in_map_iff. exists r0. by rewrite Hhit. }
  assert (Hpath : Path f = cache_path u (Filename handler)).
  { rewrite Hf. simpl. unfold where_path_id_user_live in Hhit.
    rewrite !andb_true_iff, String.eqb_eq in Hhit. tauto. }
  assert (Hid0 : ID r0 = id).
  { unfold where_path_id_user_live in Hhit.
    rewrite !andb_true_iff, !Z.eqb_eq in Hhit. tauto. }
  split.
  - unfold getFileFromCodeHandler.
    rewrite (GetFromCode_found db' now f Hc' Hfin Hlive).
    unfold os_Open. simpl. by rewrite Hpath, Hblob.
  - intros r Hr Hrid Hne. unfold getFileFromCodeHandler.
    rewrite GetFromCode_not_found; [done|].
    apply List.Forall_forall. intros x Hx. unfold where_code_live.
    apply andb_false_iff. left. apply String.eqb_neq. intros Hcx.
    rewrite Hrows in Hx. apply in_map_iff in Hx as (x0 & Hx0 & Hin).
    assert (r = r0).
    { apply (NoDup_map_inj ID (rows db)); [done|done|done|congruence]. }
    subst r0.
    destruct (where_path_id_user_live _ _ _ _ x0) eqn:Ex0.
    + apply Hne. rewrite <- Hcx, <- Hx0, Hf. done.
    + subst x. assert (x0 = r).
      { apply (NoDup_map_inj Code (rows db)); [done|done|done|congruence]. }
      congruence.
Qed.

(** X22: a replacement under another name.  On a table with distinct ids,
    when the record with the id of the request is stored under a path
    other than the one computed from the caller and the name of the new
    file, the handler answers not-found and changes nothing. *)
Theorem replacement_under_another_path_is_not_found
    db (fs : gmap string node) id handler u r
    now_code now_expiry now_updated now_live :
  NoDup (map ID (rows db)) ->
  In r (rows db) ->
  ID r = id ->
  Path r <> cache_path u (Filename handler) ->
  updateUserFileHandler filepath_Dir Rand rand_New Intn db fs
    (Some id) (inl handler) u now_code now_expiry now_updated now_live
  = {| out_db := db; out_fs := fs; out_responses := [notFoundResponse];
       out_background := [] |}.
Proof.
  intros Hi Hin Hid Hpath. unfold updateUserFileHandler.
  destruct (id <? 1); [done|].
  rewrite UpdateFromUser_no_match; [done|].
  apply List.Forall_forall. intros x Hx. apply not_true_is_false.
  intros Hhit. unfold where_path_id_user_live in Hhit.
  rewrite !andb_true_iff, String.eqb_eq, !Z.eqb_eq in Hhit.
  assert (x = r).
  { apply (NoDup_map_inj ID (rows db)); [done|done|done|]. lia. }
  subst x. tauto.
Qed.
End Properties.

(** ** The properties on the sample state

    The sample state is run with [round_seconds] as the conversion of the
    timestamp columns and with the toolchain of go.mod. *)

#[global] Instance round_seconds_Postgres : Postgres :=
  {| timestamp0 := round_seconds |}.

#[global] Instance go_1_20 : GoToolchain := {| ReadDir_op := "readdirent" |}.

(** The purge of a live record: the timer of the upload fires 30 seconds
    after the upload, the second purge a second later. *)
Lemma purge_twice_succeeds_sample :
  exists db1 fs1 db2 fs2,
    deleteFileInBackground unix_Dir (sample_db (t0 + 2 * Minute)) sample_fs
                           (t0 + 30 * Second) alice_path 1
    = (db1, fs1, None)
    /\ deleteFileInBackground unix_Dir db1 fs1 (t0 + 31 * Second) alice_path 1
       = (db2, fs2, None)
    /\ purge_twice unix_Dir (sample_db (t0 + 2 * Minute)) sample_fs
                   (t0 + 30 * Second) (t0 + 31 * Second) alice_path 1
       = (db2, fs2, None, None)
    /\ (os_Remove unix_Dir fs1 alice_path).2
       = Some (PathError "remove" alice_path ENOENT)
    /\ (t0 + 30 * Second <= t0 + 31 * Second ->
        (Delete db1 (t0 + 31 * Second) 1).2 = Some ErrRecordNotFound)
    /\ fs2 !! alice_path = None
    /\ pruned unix_Dir fs2 (unix_Dir alice_path)
    /\ (forall r, In r (rows db2) ->
                  In r (rows (sample_db (t0 + 2 * Minute))))
    /\ (1 <= 1 ->
        forall r, In r (rows db2) -> ID r = 1 ->
                  Expiry r <= t0 + 31 * Second).
Proof.
  apply (purge_twice_succeeds unix_Dir).
  - vm_compute. discriminate.
  - intros c. vm_compute. discriminate.
  - vm_compute. discriminate.
  - vm_compute. discriminate.
Defined.

(** The purge under a regular file: with a file where the cache folder
    should be, the remove fails with "not a directory", which the purge
    does not tolerate. *)
Lemma purge_under_a_regular_file :
  deleteFileInBackground unix_Dir (sample_db (t0 + 2 * Minute)) blocked_fs
                         (t0 + 30 * Second) alice_path 1
  = ({| rows := []; files_id_seq := 2 |}, blocked_fs,
     Some (PathError "remove" alice_path ENOTDIR))
  /\ ~ no_file_on_the_way unix_Dir blocked_fs alice_path.
Proof.
  split; [by vm_compute|]. intros H. apply H. by vm_compute.
Qed.

(** The purge of a record whose expiry has passed, as when the timer of a
    replacement fires two minutes after the update: both purges return nil
    and the blob is gone, and the row is still in the table. *)
Lemma purge_leaves_expired_row :
  ~ purge_leaves_nothing unix_Dir (sample_db (t0 + 2 * Minute)) sample_fs
      (t0 + 2 * Minute + 1000) (t0 + 2 * Minute + Second) alice_path 1.
Proof.
  unfold purge_leaves_nothing.
  destruct (purge_twice _ _ _ _ _ _ _) as [[[db2 fs2] err1] err2] eqn:E.
  vm_compute in E. injection E as <- _ _ _.
  intros (_ & _ & H & _).
  apply (H (alice_file (t0 + 2 * Minute))); [by left|reflexivity].
Qed.

(** Bob asks to delete the file of Alice. *)
Lemma delete_without_match_sample :
  let o := deleteUserFileHandler unix_Dir (sample_db (t0 + 2 * Minute))
             sample_fs (Some 1) bob t0 in
  DeleteFromUser (sample_db (t0 + 2 * Minute)) t0 1 bob
  = (sample_db (t0 + 2 * Minute), (EmptyString, Some sql_ErrNoRows))
  /\ (exists rest,
         out_responses o = serverErrorResponse sql_ErrNoRows :: rest)
  /\ ~ In notFoundResponse (out_responses o).
Proof.
  apply (delete_without_match_is_server_error unix_Dir).
  - lia.
  - constructor; [reflexivity|constructor].
Defined.

(** Alice uploads a.txt into an empty store. *)
Lemma upload_timer_sample :
  let f := uploaded_file (generateUniqueString Z lcg_New lcg_Intn t0) in
  out_background
    (uploadFileHandler unix_Dir Z lcg_New lcg_Intn empty_db ∅
                       (inl sample_form) alice t0 (t0 + 1000) (t0 + 2000))
  = [{| timer := 30 * Second; job_path := Path f; job_id := ID f |}]
  /\ Expiry f = t0 + 1000 + 2 * Minute
  /\ 30 * Second < Expiry f - (t0 + 1000).
Proof.
  apply (upload_timer_is_thirty_seconds unix_Dir Z lcg_New lcg_Intn).
  vm_compute. by left.
Defined.

(** The file of Alice at the very instant of its expiry. *)
Lemma expired_record_sample :
  (forall id u, GetFromUser (sample_db t0) t0 id u
                <> inl (Scan8 (alice_file t0)))
  /\ (forall code, GetFromCode (sample_db t0) t0 code
                   <> inl (Scan8 (alice_file t0)))
  /\ (forall u, ~ In (Scan8 (alice_file t0))
                     (GetAllFromUser (sample_db t0) t0 u).1).
Proof.
  apply (expired_record_is_excluded (sample_db t0) t0 (alice_file t0)).
  simpl. lia.
Defined.

(** Alice uploads a.txt a second time. *)
Lemma duplicate_path_sample :
  let db := sample_db (t0 + 2 * Minute) in
  let new_file := upload_new_file Z lcg_New lcg_Intn sample_form alice
                                  t0 (t0 + 1000) in
  let o := uploadFileHandler unix_Dir Z lcg_New lcg_Intn db sample_fs
             (inl sample_form) alice t0 (t0 + 1000) (t0 + 2000) in
  (Insert db (t0 + 2000) new_file).2 = Some ErrDuplicatePath
  /\ out_responses o
     = [failedValidationResponse {[ "file" := "path already exists" ]}]
  /\ out_fs o = sample_fs
  /\ rows (out_db o) = rows db
  /\ In (alice_file (t0 + 2 * Minute)) (rows (out_db o))
  /\ out_background o = [].
Proof.
  destruct (duplicate_path_fails_before_blob_write
              unix_Dir Z lcg_New lcg_Intn
              (sample_db (t0 + 2 * Minute)) sample_fs sample_form alice
              t0 (t0 + 1000) (t0 + 2000)) as [_ H].
  apply (H (alice_file (t0 + 2 * Minute))).
  - by left.
  - reflexivity.
  - vm_compute. discriminate.
  - vm_compute. discriminate.
Defined.

(** Alice replaces her file: the row is updated and returned, its expiry
    and last_updated rounded to the second. *)
Lemma replacement_sample :
  UpdateFromUser (sample_db (t0 + 2 * Minute)) (t0 + 1000) (t0 + 2000)
                 (t0 + 3000) alice_path 1 alice "Zz9yX8wV"
  = ({| rows := [{| ID := 1; Name := "a.txt"; Size := 5; Path := alice_path;
                    Code := "Zz9yX8wV"; Expiry := t0 + 2 * Minute;
                    CreatedAt := t0; LastUpdated := t0;
                    UserID := 7 |}];
        files_id_seq := 2 |},
     inl {| ID := 1; Name := "a.txt"; Size := 5; Path := alice_path;
            Code := "Zz9yX8wV"; Expiry := t0 + 2 * Minute;
            CreatedAt := t0; LastUpdated := t0; UserID := 7 |}).
Proof.
  destruct (replacement_is_one_conditional_update
              unix_Dir Z lcg_New lcg_Intn
              (sample_db (t0 + 2 * Minute)) (t0 + 1000) (t0 + 2000)
              (t0 + 3000) alice_path 1 alice "Zz9yX8wV")
    as (_ & _ & H & _).
  apply (H (alice_file (t0 + 2 * Minute))).
  - apply NoDup_singleton.
  - by left.
  - reflexivity.
  - intros r' [<-|[]] _. reflexivity.
Defined.


(** The error of that open is "not a directory"; with nothing on disk it
    is "no such file or directory". *)
Lemma missing_blob_errors :
  getFileFromCodeHandler unix_Dir (sample_db (t0 + 2 * Minute)) blocked_fs
                         "Ab3dE6gH" t0
  = [serverErrorResponse (PathError "open" alice_path ENOTDIR)]
  /\ getFileFromCodeHandler unix_Dir (sample_db (t0 + 2 * Minute)) ∅
                            "Ab3dE6gH" t0
     = [serverErrorResponse (PathError "open" alice_path ENOENT)].
Proof. split; by vm_compute. Qed.


(** Alice and Bob upload at the same instant: the record of Bob gets the
    code of the record of Alice, and the store refuses it. *)
Lemma simultaneous_uploads_collide :
  let f1 := uploaded_file (generateUniqueString Z lcg_New lcg_Intn t0) in
  let o1 := uploadFileHandler unix_Dir Z lcg_New lcg_Intn empty_db ∅
              (inl sample_form) alice t0 (t0 + 1000) (t0 + 2000) in
  let o2 := uploadFileHandler unix_Dir Z lcg_New lcg_Intn
              (out_db o1) (out_fs o1)
              (inl sample_form) bob t0 (t0 + 1000) (t0 + 3000) in
  Code f1 = generateUniqueString Z lcg_New lcg_Intn t0
  /\ Code (upload_new_file Z lcg_New lcg_Intn sample_form bob
                           t0 (t0 + 1000)) = Code f1
  /\ In (stored f1) (rows (out_db o1))
  /\ out_responses o2
     = [serverErrorResponse (unique_violation "files_code_key")]
  /\ rows (out_db o2) = rows (out_db o1)
  /\ out_fs o2 = out_fs o1
  /\ out_background o2 = [].
Proof.
  apply (same_instant_uploads_collide unix_Dir Z lcg_New lcg_Intn).
  - vm_compute. by left.
  - vm_compute. discriminate.
  - vm_compute. discriminate.
  - intros r [<-|[]]. vm_compute. discriminate.
Defined.

Lemma lcg_Intn_range (r n : Z) : 0 < n -> 0 <= (lcg_Intn r n).1 < n.
Proof. intros Hn. unfold lcg_Intn. simpl. apply Z.mod_pos_bound. lia. Defined.

Lemma generateUniqueString_alphabet_sample :
  String.length (generateUniqueString Z lcg_New lcg_Intn t0) = 8%nat
  /\ Forall (fun c => In c letterRunes)
            (list_ascii_of_string (generateUniqueString Z lcg_New lcg_Intn t0))
  /\ length letterRunes = 62%nat
  /\ NoDup letterRunes
  /\ forallb is_alphanumeric letterRunes = true.
Proof.
  apply (generateUniqueString_alphabet Z lcg_New lcg_Intn lcg_Intn_range t0).
Defined.

(** ** More properties on the sample state *)

Lemma sample_db_wf expiry : wf_db (sample_db expiry).
Proof.
  unfold wf_db. simpl. repeat split; try apply NoDup_singleton; [|lia].
  constructor; [simpl; lia|constructor].
Defined.

Lemma empty_db_wf : wf_db empty_db.
Proof.
  unfold wf_db. simpl. repeat split; try apply NoDup_nil_2; [|lia].
  constructor.
Defined.

Lemma store_constraints_sample :
  let db := sample_db (t0 + 2 * Minute) in
  (forall now file, wf_db (Insert db now file).1.1)
  /\ (forall now_expiry now_updated now_live path id u code,
         wf_db (UpdateFromUser db now_expiry now_updated now_live
                               path id u code).1)
  /\ (forall now id, wf_db (Delete db now id).1)
  /\ (forall now id u, wf_db (DeleteFromUser db now id u).1).
Proof.
  apply (store_constraints_are_kept (sample_db (t0 + 2 * Minute))).
  apply sample_db_wf.
Defined.

(** The file of Alice is inserted into the empty table at [t0]. *)
Lemma inserted_file_sample :
  let file := uploaded_file "Ab3dE6gH" in
  let db' := {| rows := [stored file]; files_id_seq := 2 |} in
  let now' := t0 + Second in
  GetFromCode db' now' (Code file) = inl (Scan8 (stored file))
  /\ GetFromUser db' now' (ID file) alice = inl (Scan8 (stored file))
  /\ In (Scan8 (stored file)) (GetAllFromUser db' now' alice).1
  /\ ID file = files_id_seq empty_db
  /\ CreatedAt file = timestamp0 (t0 + 2000)
  /\ LastUpdated file = timestamp0 (t0 + 2000)
  /\ Expiry file = Expiry file
  /\ Expiry (stored file) = timestamp0 (Expiry file)
  /\ (forall t, timestamp0 (Expiry file) <= t ->
      GetFromCode db' t (Code file) = inr ErrRecordNotFound).
Proof.
  apply (inserted_file_is_retrievable
           empty_db (t0 + 2000) (uploaded_file "Ab3dE6gH")
           {| rows := [stored (uploaded_file "Ab3dE6gH")];
              files_id_seq := 2 |}
           (uploaded_file "Ab3dE6gH") (t0 + Second) alice).
  - apply empty_db_wf.
  - vm_compute. reflexivity.
  - vm_compute. reflexivity.
  - reflexivity.
Defined.

(** The row of that record holds the expiry rounded to the second: half a
    microsecond after it the record is no longer found, although the
    expiry of the record that the upload answered with has not passed. *)
Lemma stored_expiry_is_rounded :
  let file := uploaded_file "Ab3dE6gH" in
  let db' := {| rows := [stored file]; files_id_seq := 2 |} in
  Insert empty_db (t0 + 2000) file = (db', file, None)
  /\ Expiry (stored file) = t0 + 2 * Minute
  /\ t0 + 2 * Minute + 500 < Expiry file
  /\ GetFromCode db' (t0 + 2 * Minute + 500) (Code file)
     = inr ErrRecordNotFound.
Proof. vm_compute. repeat split; reflexivity. Qed.

Lemma live_record_sample :
  let e := t0 + 2 * Minute in
  GetFromCode (sample_db e) t0 "Ab3dE6gH" = inl (Scan8 (alice_file e))
  /\ (1 <= 1 -> 7 = 7 ->
      GetFromUser (sample_db e) t0 1 alice = inl (Scan8 (alice_file e))
      /\ In (Scan8 (alice_file e)) (GetAllFromUser (sample_db e) t0 alice).1).
Proof.
  apply (live_record_is_found (sample_db (t0 + 2 * Minute)) t0
                              (alice_file (t0 + 2 * Minute)) alice).
  - apply NoDup_singleton.
  - apply NoDup_singleton.
  - by left.
  - reflexivity.
Defined.

(** Alice deletes her file. *)
Lemma DeleteFromUser_own_row_sample :
  let e := t0 + 2 * Minute in
  exists db',
    DeleteFromUser (sample_db e) t0 1 alice = (db', (alice_path, None))
    /\ files_id_seq db' = 2
    /\ (forall r', In r' (rows db')
                   <-> In r' (rows (sample_db e)) /\ r' <> alice_file e).
Proof.
  apply (DeleteFromUser_removes_own_row (sample_db (t0 + 2 * Minute)) t0
                                        alice (alice_file (t0 + 2 * Minute))).
  - apply NoDup_singleton.
  - by left.
  - simpl. lia.
  - reflexivity.
  - reflexivity.
Defined.

(** DeleteFromUser for Bob and the id of the file of Alice. *)
Lemma DeleteFromUser_spares_sample :
  In (alice_file (t0 + 2 * Minute))
     (rows (DeleteFromUser (sample_db (t0 + 2 * Minute)) t0 1 bob).1).
Proof.
  apply (DeleteFromUser_spares_other_rows (sample_db (t0 + 2 * Minute)) t0 1
                                          bob (alice_file (t0 + 2 * Minute))).
  - by left.
  - left. simpl. lia.
Defined.

(** Alice replaces her file with six bytes: the record keeps size 5. *)
Lemma UpdateFromUser_keeps_sample :
  let e := t0 + 2 * Minute in
  let f := set_expiry_updated_code (timestamp0 (t0 + 1000 + 2 * Minute))
                                   (timestamp0 (t0 + 2000))
                                   "Zz9yX8wV" (alice_file e) in
  exists r,
    In r (rows (sample_db e))
    /\ In f (rows (UpdateFromUser (sample_db e) (t0 + 1000) (t0 + 2000)
                                  (t0 + 3000) alice_path 1 alice
                                  "Zz9yX8wV").1)
    /\ ID f = 1 /\ ID r = 1
    /\ Path f = alice_path /\ UserID f = User_ID alice
    /\ Name f = Name r /\ Size f = Size r /\ CreatedAt f = CreatedAt r
    /\ t0 + 3000 < Expiry r.
Proof.
  apply (UpdateFromUser_keeps_name_and_size
           (sample_db (t0 + 2 * Minute)) (t0 + 1000) (t0 + 2000) (t0 + 3000)
           alice_path 1 alice "Zz9yX8wV"
           (UpdateFromUser (sample_db (t0 + 2 * Minute)) (t0 + 1000)
                           (t0 + 2000) (t0 + 3000) alice_path 1 alice
                           "Zz9yX8wV").1
           (set_expiry_updated_code (timestamp0 (t0 + 1000 + 2 * Minute))
                                    (timestamp0 (t0 + 2000))
                                    "Zz9yX8wV"
                                    (alice_file (t0 + 2 * Minute)))).
  vm_compute. reflexivity.
Defined.

(** The blob of Alice is written into an empty filesystem. *)
Lemma createFile_sample :
  let fs' := (createFile unix_Dir ∅ "hello" alice_path).1 in
  fs' !! alice_path = Some (RegFile "hello")
  /\ fs' !! unix_Dir alice_path = Some Directory
  /\ (forall q n, q <> alice_path ->
                  (∅ : gmap string node) !! q = Some n -> fs' !! q = Some n)
  /\ (forall q n, fs' !! q = Some n ->
                  q = alice_path \/ (∅ : gmap string node) !! q = Some n
                  \/ (∅ : gmap string node) !! q = None /\ n = Directory).
Proof.
  apply (createFile_writes_the_blob unix_Dir ∅
           (createFile unix_Dir ∅ "hello" alice_path).1 "hello" alice_path).
  vm_compute. reflexivity.
Defined.

(** Alice uploads a.txt into an empty store and fetches it by its code:
    the download before the expiry of the row, not-found from it on. *)
Lemma upload_then_download_sample :
  let o := uploadFileHandler unix_Dir Z lcg_New lcg_Intn empty_db ∅
             (inl sample_form) alice t0 (t0 + 1000) (t0 + 2000) in
  let f := uploaded_file (generateUniqueString Z lcg_New lcg_Intn t0) in
  let now := t0 + Second in
  (now < timestamp0 (Expiry f) ->
   getFileFromCodeHandler unix_Dir (out_db o) (out_fs o) (Code f) now
   = [attachment (Filename sample_form) (len (Content sample_form));
      ioCopy (Content sample_form)])
  /\ (timestamp0 (Expiry f) <= now ->
      getFileFromCodeHandler unix_Dir (out_db o) (out_fs o) (Code f) now
      = [notFoundResponse]).
Proof.
  apply (upload_then_download unix_Dir Z lcg_New lcg_Intn empty_db ∅
           sample_form alice t0 (t0 + 1000) (t0 + 2000)
           (uploaded_file (generateUniqueString Z lcg_New lcg_Intn t0))
           (t0 + Second)).
  vm_compute. by left.
Defined.

(** The two answers on the sample: a second after the upload, and half a
    microsecond after the expiry of the row. *)
Lemma upload_then_download_answers :
  let o := uploadFileHandler unix_Dir Z lcg_New lcg_Intn empty_db ∅
             (inl sample_form) alice t0 (t0 + 1000) (t0 + 2000) in
  let code := generateUniqueString Z lcg_New lcg_Intn t0 in
  getFileFromCodeHandler unix_Dir (out_db o) (out_fs o) code (t0 + Second)
  = [attachment "a.txt" 5; ioCopy "hello"]
  /\ getFileFromCodeHandler unix_Dir (out_db o) (out_fs o) code
                            (t0 + 2 * Minute + 500)
     = [notFoundResponse].
Proof. split; by vm_compute. Qed.

(** The job of that upload fires after its 30 seconds. *)
Lemma upload_job_sample :
  let o := uploadFileHandler unix_Dir Z lcg_New lcg_Intn empty_db ∅
             (inl sample_form) alice t0 (t0 + 1000) (t0 + 2000) in
  let f := uploaded_file (generateUniqueString Z lcg_New lcg_Intn t0) in
  let j := {| timer := 30 * Second; job_path := alice_path; job_id := 1 |} in
  let now := t0 + 30 * Second in
  exists db2 fs2,
    deleteFileInBackground unix_Dir (out_db o) (out_fs o) now
                           (job_path j) (job_id j)
    = (db2, fs2, None)
    /\ fs2 !! Path f = None
    /\ (now < timestamp0 (Expiry f) -> rows db2 = rows empty_db)
    /\ (timestamp0 (Expiry f) <= now ->
        rows db2 = rows empty_db ++ [stored f]).
Proof.
  apply (upload_job_removes_the_upload unix_Dir Z lcg_New lcg_Intn empty_db ∅
           sample_form alice t0 (t0 + 1000) (t0 + 2000)
           (uploaded_file (generateUniqueString Z lcg_New lcg_Intn t0))
           {| timer := 30 * Second; job_path := alice_path; job_id := 1 |}
           (t0 + 30 * Second)).
  - apply empty_db_wf.
  - vm_compute. by left.
  - vm_compute. by left.
Defined.

(** Alice uploads a file that declares two million bytes. *)
Lemma invalid_upload_sample :
  let o := uploadFileHandler unix_Dir Z lcg_New lcg_Intn empty_db ∅
             (inl big_form) alice t0 (t0 + 1000) (t0 + 2000) in
  out_db o = empty_db /\ out_fs o = ∅ /\ out_background o = []
  /\ exists errors,
       errors <> ∅ /\ out_responses o = [failedValidationResponse errors].
Proof.
  apply (invalid_upload_reaches_no_store unix_Dir Z lcg_New lcg_Intn
           empty_db ∅ big_form alice t0 (t0 + 1000) (t0 + 2000)).
  right. reflexivity.
Defined.

(** Alice uploads while a regular file named cache stands where the cache
    folder should be. *)
Lemma failed_blob_write_sample :
  let f := uploaded_file (generateUniqueString Z lcg_New lcg_Intn t0) in
  let db' := {| rows := [stored f]; files_id_seq := 2 |} in
  uploadFileHandler unix_Dir Z lcg_New lcg_Intn empty_db blocked_fs
                    (inl sample_form) alice t0 (t0 + 1000) (t0 + 2000)
  = {| out_db := db';
       out_fs := blocked_fs;
       out_responses :=
         [serverErrorResponse (PathError "mkdir" "cache" ENOTDIR)];
       out_background := [] |}
  /\ In (stored f) (rows db')
  /\ Expiry (stored f) = timestamp0 (t0 + 1000 + 2 * Minute)
  /\ (forall now, now < timestamp0 (Expiry f) ->
                  GetFromCode db' now (Code f) = inl (Scan8 (stored f)))
  /\ (forall now, timestamp0 (Expiry f) <= now ->
                  GetFromCode db' now (Code f) = inr ErrRecordNotFound).
Proof.
  apply (failed_blob_write_keeps_the_record unix_Dir Z lcg_New lcg_Intn
           empty_db blocked_fs sample_form alice t0 (t0 + 1000) (t0 + 2000)
           {| rows := [stored (uploaded_file
                                 (generateUniqueString Z lcg_New lcg_Intn
                                                       t0))];
              files_id_seq := 2 |}
           (uploaded_file (generateUniqueString Z lcg_New lcg_Intn t0))
           blocked_fs (PathError "mkdir" "cache" ENOTDIR)).
  - vm_compute. discriminate.
  - vm_compute. discriminate.
  - vm_compute. reflexivity.
  - vm_compute. reflexivity.
Defined.

(** Alice deletes her file, the only one in her folder. *)
Lemma owner_delete_sample :
  let e := t0 + 2 * Minute in
  let o := deleteUserFileHandler unix_Dir (sample_db e) sample_fs (Some 1)
                                 alice t0 in
  out_responses o
  = [writeJSON StatusOK "message" (data_message "file successfully deleted")]
  /\ (forall r', In r' (rows (out_db o))
                 <-> In r' (rows (sample_db e)) /\ r' <> alice_file e)
  /\ out_fs o !! alice_path = None
  /\ pruned unix_Dir (out_fs o) (unix_Dir alice_path)
  /\ (forall p, p <> alice_path -> p <> unix_Dir alice_path ->
                out_fs o !! p = sample_fs !! p).
Proof.
  apply (owner_delete_removes_record_and_blob unix_Dir
           (sample_db (t0 + 2 * Minute)) sample_fs alice
           (alice_file (t0 + 2 * Minute)) t0 "hello").
  - apply NoDup_singleton.
  - by left.
  - simpl. lia.
  - reflexivity.
  - reflexivity.
  - reflexivity.
  - reflexivity.
Defined.


(** The two errors of that remove on the sample: "not a directory" under
    the regular file, "no such file or directory" with nothing on disk. *)
Lemma owner_delete_missing_blob_errors :
  let e := t0 + 2 * Minute in
  out_responses (deleteUserFileHandler unix_Dir (sample_db e) blocked_fs
                                       (Some 1) alice t0)
  = [serverErrorResponse (PathError "remove" alice_path ENOTDIR)]
  /\ out_responses (deleteUserFileHandler unix_Dir (sample_db e) ∅
                                          (Some 1) alice t0)
     = [serverErrorResponse (PathError "remove" alice_path ENOENT)].
Proof. split; by vm_compute. Qed.


(** Alice replaces her file ten seconds after the upload; the job of the
    upload fires at its 30 seconds. *)
Lemma older_job_sample :
  let o := updateUserFileHandler unix_Dir Z lcg_New lcg_Intn
             (sample_db (t0 + 2 * Minute)) sample_fs
             (Some 1) (inl new_form) alice (t0 + 10 * Second)
             (t0 + 11 * Second) (t0 + 12 * Second) (t0 + 13 * Second) in
  exists db2 fs2,
    deleteFileInBackground unix_Dir (out_db o) (out_fs o)
                           (t0 + 30 * Second) alice_path 1
    = (db2, fs2, None)
    /\ (forall r, In r (rows db2) -> ID r <> 1)
    /\ fs2 !! alice_path = None.
Proof.
  apply (older_job_purges_the_replaced_file unix_Dir Z lcg_New lcg_Intn
           (sample_db (t0 + 2 * Minute)) sample_fs 1 new_form alice
           (t0 + 10 * Second) (t0 + 11 * Second) (t0 + 12 * Second)
           (t0 + 13 * Second)
           (set_expiry_updated_code
              (t0 + 11 * Second + 2 * Minute) (t0 + 12 * Second)
              (generateUniqueString Z lcg_New lcg_Intn (t0 + 10 * Second))
              (alice_file (t0 + 2 * Minute)))
           (t0 + 30 * Second)).
  - apply NoDup_singleton.
  - vm_compute. by left.
  - reflexivity.
Defined.

(** After that replacement the new code serves the new bytes and the old
    code is not found. *)
Lemma replacement_then_download_sample :
  let o := updateUserFileHandler unix_Dir Z lcg_New lcg_Intn
             (sample_db (t0 + 2 * Minute)) sample_fs
             (Some 1) (inl new_form) alice (t0 + 10 * Second)
             (t0 + 11 * Second) (t0 + 12 * Second) (t0 + 13 * Second) in
  getFileFromCodeHandler unix_Dir (out_db o) (out_fs o)
    (generateUniqueString Z lcg_New lcg_Intn (t0 + 10 * Second))
    (t0 + 20 * Second)
  = [attachment "a.txt" 6; ioCopy "hello!"]
  /\ getFileFromCodeHandler unix_Dir (out_db o) (out_fs o) "Ab3dE6gH"
                            (t0 + 20 * Second)
     = [notFoundResponse].
Proof.
  destruct (replacement_then_download unix_Dir Z lcg_New lcg_Intn
           (sample_db (t0 + 2 * Minute)) sample_fs 1 new_form alice
           (t0 + 10 * Second) (t0 + 11 * Second) (t0 + 12 * Second)
           (t0 + 13 * Second)
           (set_expiry_updated_code
              (t0 + 11 * Second + 2 * Minute) (t0 + 12 * Second)
              (generateUniqueString Z lcg_New lcg_Intn (t0 + 10 * Second))
              (alice_file (t0 + 2 * Minute)))
           (t0 + 20 * Second)) as [H1 H2].
  - apply sample_db_wf.
  - vm_compute. by left.
  - reflexivity.
  - split; [exact H1|].
    apply (H2 (alice_file (t0 + 2 * Minute))).
    + by left.
    + reflexivity.
    + vm_compute. discriminate.
Defined.

(** Alice tries to replace her a.txt with a file named b.txt. *)
Lemma replacement_other_name_sample :
  updateUserFileHandler unix_Dir Z lcg_New lcg_Intn
    (sample_db (t0 + 2 * Minute)) sample_fs (Some 1) (inl other_form) alice
    (t0 + 10 * Second) (t0 + 11 * Second) (t0 + 12 * Second)
    (t0 + 13 * Second)
  = {| out_db := sample_db (t0 + 2 * Minute); out_fs := sample_fs;
       out_responses := [notFoundResponse]; out_background := [] |}.
Proof.
  apply (replacement_under_another_path_is_not_found
           unix_Dir Z lcg_New lcg_Intn (sample_db (t0 + 2 * Minute))
           sample_fs 1 other_form alice (alice_file (t0 + 2 * Minute))).
  - apply NoDup_singleton.
  - by left.
  - reflexivity.
  - vm_compute. discriminate.
Defined.
